(** * Two-State Steam Calculator: the state resolver, unit conversion and
      delta report of [ThermoStateCalc_appHW.py], embedded in Rocq.

    Python floats are IEEE binary64 numbers: they are modelled by Rocq's
    primitive floats, so comparisons with NaN, signed zeros and rounding are
    those of the program.  Python strings are modelled by [string], read as
    ASCII text (the property codes and combo-box entries of the program are
    ASCII).  The steam tables (pyXSteam) and the conversion constants
    ([UnitConversion.UC]) are collaborators of the program: they are taken
    as parameters. *)

From Stdlib Require Import Floats ZArith String Ascii List Bool Lia.
Import ListNotations.

Set Warnings "-inexact-float".

Local Open Scope string_scope.
Local Open Scope float_scope.

(** ** Python strings: [str.lower], [str.strip], [in], slicing *)

Module Py.

Definition is_upper (c : ascii) : bool :=
  let n := nat_of_ascii c in (65 <=? n)%nat && (n <=? 90)%nat.

Definition lower_ascii (c : ascii) : ascii :=
  if is_upper c then ascii_of_nat (nat_of_ascii c + 32) else c.

(** [s.lower()] *)
Fixpoint lower (s : string) : string :=
  match s with
  | EmptyString => EmptyString
  | String c s' => String (lower_ascii c) (lower s')
  end.

(** [c.isspace()] on ASCII: tab, newline, vertical tab, form feed,
    carriage return, the four separators 0x1c..0x1f, and space. *)
Definition is_space (c : ascii) : bool :=
  let n := nat_of_ascii c in
  ((9 <=? n)%nat && (n <=? 13)%nat) || ((28 <=? n)%nat && (n <=? 32)%nat).

Fixpoint lstrip (s : string) : string :=
  match s with
  | EmptyString => EmptyString
  | String c s' => if is_space c then lstrip s' else s
  end.

Fixpoint rstrip (s : string) : string :=
  match s with
  | EmptyString => EmptyString
  | String c s' =>
      match rstrip s' with
      | EmptyString => if is_space c then EmptyString else String c EmptyString
      | r => String c r
      end
  end.

(** [s.strip()] *)
Definition strip (s : string) : string := rstrip (lstrip s).

(** [a in l] for a list of strings: equality with some element. *)
Definition in_list (a : string) (l : list string) : bool :=
  existsb (String.eqb a) l.

(** [c in s] for a one-character string [c]. *)
Fixpoint contains (c : ascii) (s : string) : bool :=
  match s with
  | EmptyString => false
  | String d s' => Ascii.eqb c d || contains c s'
  end.

(** [s.index(c)]: position of the first occurrence (only called when
    [c in s] holds; 0 stands for the [ValueError] otherwise). *)
Fixpoint index (c : ascii) (s : string) : nat :=
  match s with
  | EmptyString => 0
  | String d s' => if Ascii.eqb c d then 0 else S (index c s')
  end.

(** [s[a:b]] for non-negative [a], [b] with [b <= len(s)]. *)
Definition slice (a b : nat) (s : string) : string :=
  substring a (b - a) s.

End Py.

(** ** Exceptions and results *)

(** The messages of the [ValueError]s raised by [setState].  The f-strings
    format the offending value; the message keeps the value itself. *)
Inductive message : Type :=
| InvalidPressure (pbar : float)
    (* "Invalid pressure {pbar:.3f} bar (must be > 0)." *)
| PressureAboveLimit (pbar : float)
    (* "Pressure {pbar:.3f} bar above XSteam limit (~300)." *)
| TemperatureBelow0 (tC : float)
    (* "Temperature {tC:.2f} C below 0 is not supported." *)
| TemperatureAbove600 (tC : float)
    (* "Temperature {tC:.2f} C above 600 might crash XSteam." *)
| ComboNotImplemented (prop1 prop2 : string)
    (* "Property combo ({prop1}, {prop2}) not implemented yet." *)
| CouldNotConvert (text : string)
    (* "could not convert string to float: {text!r}", raised by [float] *)
| OtherMessage (text : string).

Inductive exn : Type :=
| ValueError (m : message)
| TypeError                       (* arithmetic or comparison on [None] *)
| OtherException (text : string). (* anything else a collaborator raises *)

Inductive result (A : Type) : Type :=
| Ok (a : A)
| Raise (e : exn).
Arguments Ok {A} a.
Arguments Raise {A} e.

(** ** The steam tables (pyXSteam) *)

Inductive UnitSystem : Type := UNIT_SYSTEM_MKS | UNIT_SYSTEM_FLS.

(** The methods of an [XSteam] object that the program calls.  A call
    returns a float or raises. *)
Record XSteam : Type := {
  tsat_p : float -> result float;
  uL_p : float -> result float;
  uV_p : float -> result float;
  hL_p : float -> result float;
  hV_p : float -> result float;
  sL_p : float -> result float;
  sV_p : float -> result float;
  vL_p : float -> result float;
  vV_p : float -> result float;
  u_pt : float -> float -> result float;
  h_pt : float -> float -> result float;
  s_pt : float -> float -> result float;
  v_pt : float -> float -> result float
}.

(** ** class thermoState *)

Module State.

Record thermoState : Type := {
  steamTable : XSteam;
  region : string;
  p : option float;
  t : option float;
  v : option float;
  u : option float;
  h : option float;
  s : option float;
  x : option float
}.

Definition set_steamTable (a : XSteam) (st : thermoState) : thermoState :=
  {| steamTable := a; region := region st; p := p st; t := t st;
     v := v st; u := u st; h := h st; s := s st; x := x st |}.
Definition set_region (a : string) (st : thermoState) : thermoState :=
  {| steamTable := steamTable st; region := a; p := p st; t := t st;
     v := v st; u := u st; h := h st; s := s st; x := x st |}.
Definition set_p (a : float) (st : thermoState) : thermoState :=
  {| steamTable := steamTable st; region := region st; p := Some a; t := t st;
     v := v st; u := u st; h := h st; s := s st; x := x st |}.
Definition set_t (a : float) (st : thermoState) : thermoState :=
  {| steamTable := steamTable st; region := region st; p := p st; t := Some a;
     v := v st; u := u st; h := h st; s := s st; x := x st |}.
Definition set_v (a : float) (st : thermoState) : thermoState :=
  {| steamTable := steamTable st; region := region st; p := p st; t := t st;
     v := Some a; u := u st; h := h st; s := s st; x := x st |}.
Definition set_u (a : float) (st : thermoState) : thermoState :=
  {| steamTable := steamTable st; region := region st; p := p st; t := t st;
     v := v st; u := Some a; h := h st; s := s st; x := x st |}.
Definition set_h (a : float) (st : thermoState) : thermoState :=
  {| steamTable := steamTable st; region := region st; p := p st; t := t st;
     v := v st; u := u st; h := Some a; s := s st; x := x st |}.
Definition set_s (a : float) (st : thermoState) : thermoState :=
  {| steamTable := steamTable st; region := region st; p := p st; t := t st;
     v := v st; u := u st; h := h st; s := Some a; x := x st |}.
Definition set_x (a : float) (st : thermoState) : thermoState :=
  {| steamTable := steamTable st; region := region st; p := p st; t := t st;
     v := v st; u := u st; h := h st; s := s st; x := Some a |}.

End State.

Definition thermoState : Type := State.thermoState.

(** ** Methods as state transformers that may raise

    A method of [thermoState] mutates [self] step by step and may raise in
    the middle: a computation returns its outcome together with the object
    as the assignments made so far have left it. *)

Definition M (A : Type) : Type := thermoState -> result A * thermoState.

Definition ret {A} (a : A) : M A := fun st => (Ok a, st).

Definition bind {A B} (c : M A) (k : A -> M B) : M B :=
  fun st =>
    match c st with
    | (Ok a, st') => k a st'
    | (Raise e, st') => (Raise e, st')
    end.

Definition raise {A} (e : exn) : M A := fun st => (Raise e, st).

(** [self.f = a] *)
Definition assign (f : thermoState -> thermoState) : M unit :=
  fun st => (Ok tt, f st).

(** Reading [self.f] where a number is needed: [None] makes the operation
    that uses it raise [TypeError]. *)
Definition read (f : thermoState -> option float) : M float :=
  fun st =>
    match f st with
    | Some a => (Ok a, st)
    | None => (Raise TypeError, st)
    end.

(** Reading [self.f] as it is. *)
Definition get {A} (f : thermoState -> A) : M A := fun st => (Ok (f st), st).

(** A call of a steam-table method. *)
Definition call (r : result float) : M float := fun st => (r, st).

Declare Scope py_scope.
Delimit Scope py_scope with py.
Notation "a <- c ;; k" := (bind c (fun a => k))
  (at level 61, c at next level, right associativity) : py_scope.
Notation "c ;; k" := (bind c (fun _ => k))
  (at level 61, right associativity) : py_scope.
Local Open Scope py_scope.

(** ** thermoState.__init__, computeProperties, setState *)

Section Resolver.

(** The constructor [XSteam(unit_system)] of pyXSteam. *)
Variable XSteam_new : UnitSystem -> XSteam.

(** [XSteam.UNIT_SYSTEM_MKS if SI else XSteam.UNIT_SYSTEM_FLS] *)
Definition units (SI : bool) : UnitSystem :=
  if SI then UNIT_SYSTEM_MKS else UNIT_SYSTEM_FLS.

(** [prop.lower().strip()] *)
Definition normalize (prop : string) : string := Py.strip (Py.lower prop).

(** [thermoState.__init__] *)
Definition init : thermoState :=
  {| State.steamTable := XSteam_new UNIT_SYSTEM_MKS;
     State.region := "saturated";
     State.p := None; State.t := None; State.v := None; State.u := None;
     State.h := None; State.s := None; State.x := None |}.

(** [thermoState.computeProperties] *)
Definition computeProperties : M unit :=
  region <- get State.region ;;
  if (region =? "two-phase")%string then
    tbl <- get State.steamTable ;;
    pv <- read State.p ;; uf <- call (uL_p tbl pv) ;;
    pv <- read State.p ;; ug <- call (uV_p tbl pv) ;;
    pv <- read State.p ;; hf <- call (hL_p tbl pv) ;;
    pv <- read State.p ;; hg <- call (hV_p tbl pv) ;;
    pv <- read State.p ;; sf <- call (sL_p tbl pv) ;;
    pv <- read State.p ;; sg <- call (sV_p tbl pv) ;;
    pv <- read State.p ;; vf <- call (vL_p tbl pv) ;;
    pv <- read State.p ;; vg <- call (vV_p tbl pv) ;;
    xv <- read State.x ;; assign (State.set_u (uf + xv * (ug - uf))) ;;
    xv <- read State.x ;; assign (State.set_h (hf + xv * (hg - hf))) ;;
    xv <- read State.x ;; assign (State.set_s (sf + xv * (sg - sf))) ;;
    xv <- read State.x ;; assign (State.set_v (vf + xv * (vg - vf)))
  else
    tbl <- get State.steamTable ;;
    pv <- read State.p ;; tv <- read State.t ;;
    uv <- call (u_pt tbl pv tv) ;; assign (State.set_u uv) ;;
    pv <- read State.p ;; tv <- read State.t ;;
    hv <- call (h_pt tbl pv tv) ;; assign (State.set_h hv) ;;
    pv <- read State.p ;; tv <- read State.t ;;
    sv <- call (s_pt tbl pv tv) ;; assign (State.set_s sv) ;;
    pv <- read State.p ;; tv <- read State.t ;;
    vv <- call (v_pt tbl pv tv) ;; assign (State.set_v vv) ;;
    region <- get State.region ;;
    if (region =? "super-heated vapor")%string then assign (State.set_x 1.0)
    else if (region =? "sub-cooled liquid")%string then assign (State.set_x 0.0)
    else ret tt.

(** The local function [checkPressure] of [setState]. *)
Definition checkPressure (pbar : float) : M unit :=
  if pbar <=? 0.0 then raise (ValueError (InvalidPressure pbar))
  else if 300.0 <? pbar then raise (ValueError (PressureAboveLimit pbar))
  else ret tt.

(** The local function [checkTemperature] of [setState]. *)
Definition checkTemperature (tC : float) : M unit :=
  if tC <? 0.0 then raise (ValueError (TemperatureBelow0 tC))
  else if 600.0 <? tC then raise (ValueError (TemperatureAbove600 tC))
  else ret tt.

(** [thermoState.setState(prop1, prop2, val1, val2, SI)] *)
Definition setState (prop1 prop2 : string) (val1 val2 : float) (SI : bool)
  : M unit :=
  assign (State.set_steamTable (XSteam_new (units SI))) ;;
  let prop1 := normalize prop1 in
  let prop2 := normalize prop2 in
  if Py.in_list "p" [prop1; prop2] && Py.in_list "t" [prop1; prop2] then
    (if (prop1 =? "p")%string
     then assign (State.set_p val1) ;; assign (State.set_t val2)
     else assign (State.set_p val2) ;; assign (State.set_t val1)) ;;
    pv <- read State.p ;; checkPressure pv ;;
    tv <- read State.t ;; checkTemperature tv ;;
    tbl <- get State.steamTable ;;
    pv <- read State.p ;; tsat <- call (tsat_p tbl pv) ;;
    tv <- read State.t ;;
    (if abs (tv - tsat) <? 0.0001 then
       assign (State.set_region "two-phase") ;; assign (State.set_x 0.5)
     else
       tv <- read State.t ;;
       if tsat <? tv then assign (State.set_region "super-heated vapor")
       else assign (State.set_region "sub-cooled liquid")) ;;
    computeProperties
  else if Py.in_list "p" [prop1; prop2] && Py.in_list "x" [prop1; prop2] then
    (if (prop1 =? "p")%string
     then assign (State.set_p val1) ;; assign (State.set_x val2)
     else assign (State.set_p val2) ;; assign (State.set_x val1)) ;;
    pv <- read State.p ;; checkPressure pv ;;
    xv <- read State.x ;;
    (if xv <? 0.0 then assign (State.set_x 0.0) else ret tt) ;;
    xv <- read State.x ;;
    (if 1.0 <? xv then assign (State.set_x 1.0) else ret tt) ;;
    assign (State.set_region "two-phase") ;;
    tbl <- get State.steamTable ;;
    pv <- read State.p ;; tsat <- call (tsat_p tbl pv) ;;
    assign (State.set_t tsat) ;;
    tv <- read State.t ;; checkTemperature tv ;;
    computeProperties
  else
    raise (ValueError (ComboNotImplemented prop1 prop2)).

End Resolver.

(** ** Unit conversion: [convertValue], local to [main_window.setUnits] *)

(** The members of the class [UC] of the module [UnitConversion] that
    [convertValue] uses: eight factors and the two temperature functions. *)
Record UnitConversion : Type := {
  bar_to_psi : float;
  psi_to_bar : float;
  C_to_F : float -> float;
  F_to_C : float -> float;
  kJperkg_to_btuperlb : float;
  btuperlb_to_kJperkg : float;
  kJperkgC_to_btuperlbF : float;
  btuperlbF_to_kJperkgC : float;
  m3perkg_to_ft3perlb : float;
  ft3perlb_to_m3perkg : float
}.

Section Conversion.

Variable UC : UnitConversion.

Definition convertValue (val : float) (propType : string)
    (oldIsSI newIsSI : bool) : float :=
  if Bool.eqb oldIsSI newIsSI then val
  else if (propType =? "p")%string then
    if oldIsSI then val * bar_to_psi UC else val * psi_to_bar UC
  else if (propType =? "t")%string then
    if oldIsSI then C_to_F UC val else F_to_C UC val
  else if Py.in_list propType ["h"; "u"] then
    if oldIsSI then val * kJperkg_to_btuperlb UC
    else val * btuperlb_to_kJperkg UC
  else if (propType =? "s")%string then
    if oldIsSI then val * kJperkgC_to_btuperlbF UC
    else val * btuperlbF_to_kJperkgC UC
  else if (propType =? "v")%string then
    if oldIsSI then val * m3perkg_to_ft3perlb UC
    else val * ft3perlb_to_m3perkg UC
  else if (propType =? "x")%string then val
  else val.

End Conversion.

(** ** class main_window: labels, delta report, [calculateProperties] *)

(** The local function [shortProp]: "Pressure (p)" gives "p". *)
Definition shortProp (cmbText : string) : string :=
  if Py.contains "("%char cmbText && Py.contains ")"%char cmbText then
    Py.lower (Py.slice (Py.index "("%char cmbText + 1)
                       (Py.index ")"%char cmbText) cmbText)
  else "".

(** One line of a label.  The f-strings format floats with a fixed number
    of digits; a line keeps the number and the digits asked for. *)
Inductive line : Type :=
| Text (text : string)
| RegionLine (region : string)
    (* f"Region: {st.region}" *)
| ValueLine (name : string) (value : float) (digits : nat) (units : string)
    (* f"{name} = {value:.{digits}f} ({units})" *)
| BareLine (name : string) (value : float) (digits : nat)
    (* f"{name} = {value:.{digits}f}" *)
| ErrorLine (ex : exn)
    (* f"Error: {ex}" *)
| UnexpectedLine (ex : exn).
    (* f"Unexpected error: {ex}" *)

(** The text of a label: its lines, joined by newlines in the program. *)
Definition label : Type := list line.

(** What a line edit holds, as [float(le.text())] reads it: a text that
    reads as a number is represented by that number; for any other text
    (empty, "abc") [float] raises [ValueError]. *)
Inductive lineEdit : Type :=
| Number (val : float)
| NoNumber (text : string).

(** [float(le.text())] *)
Definition float_text (le : lineEdit) : result float :=
  match le with
  | Number val => Ok val
  | NoNumber text => Raise (ValueError (CouldNotConvert text))
  end.

Module Window.

(** The attributes and widgets of [main_window] that the calculation
    reads or writes. *)
Record main_window : Type := {
  currentUnits : string;
  pUnits : string;
  tUnits : string;
  hUnits : string;
  uUnits : string;
  sUnits : string;
  vUnits : string;
  cmbProp1S1 : string;
  cmbProp2S1 : string;
  cmbProp1S2 : string;
  cmbProp2S2 : string;
  lePropVal1S1 : lineEdit;
  lePropVal2S1 : lineEdit;
  lePropVal1S2 : lineEdit;
  lePropVal2S2 : lineEdit;
  lblWarning : label;
  lblResultsS1 : label;
  lblResultsS2 : label;
  lblResultsDelta : label
}.

Definition set_lblWarning (a : label) (w : main_window) : main_window :=
  {| currentUnits := currentUnits w; pUnits := pUnits w; tUnits := tUnits w;
     hUnits := hUnits w; uUnits := uUnits w; sUnits := sUnits w;
     vUnits := vUnits w;
     cmbProp1S1 := cmbProp1S1 w; cmbProp2S1 := cmbProp2S1 w;
     cmbProp1S2 := cmbProp1S2 w; cmbProp2S2 := cmbProp2S2 w;
     lePropVal1S1 := lePropVal1S1 w; lePropVal2S1 := lePropVal2S1 w;
     lePropVal1S2 := lePropVal1S2 w; lePropVal2S2 := lePropVal2S2 w;
     lblWarning := a; lblResultsS1 := lblResultsS1 w;
     lblResultsS2 := lblResultsS2 w; lblResultsDelta := lblResultsDelta w |}.

Definition set_lblResults (a1 a2 ad : label) (w : main_window)
  : main_window :=
  {| currentUnits := currentUnits w; pUnits := pUnits w; tUnits := tUnits w;
     hUnits := hUnits w; uUnits := uUnits w; sUnits := sUnits w;
     vUnits := vUnits w;
     cmbProp1S1 := cmbProp1S1 w; cmbProp2S1 := cmbProp2S1 w;
     cmbProp1S2 := cmbProp1S2 w; cmbProp2S2 := cmbProp2S2 w;
     lePropVal1S1 := lePropVal1S1 w; lePropVal2S1 := lePropVal2S1 w;
     lePropVal1S2 := lePropVal1S2 w; lePropVal2S2 := lePropVal2S2 w;
     lblWarning := lblWarning w; lblResultsS1 := a1;
     lblResultsS2 := a2; lblResultsDelta := ad |}.

(** The assignments to [currentUnits] and to the six unit strings. *)
Definition set_units (cu pu tu hu uu su vu : string) (w : main_window)
  : main_window :=
  {| currentUnits := cu; pUnits := pu; tUnits := tu;
     hUnits := hu; uUnits := uu; sUnits := su; vUnits := vu;
     cmbProp1S1 := cmbProp1S1 w; cmbProp2S1 := cmbProp2S1 w;
     cmbProp1S2 := cmbProp1S2 w; cmbProp2S2 := cmbProp2S2 w;
     lePropVal1S1 := lePropVal1S1 w; lePropVal2S1 := lePropVal2S1 w;
     lePropVal1S2 := lePropVal1S2 w; lePropVal2S2 := lePropVal2S2 w;
     lblWarning := lblWarning w; lblResultsS1 := lblResultsS1 w;
     lblResultsS2 := lblResultsS2 w; lblResultsDelta := lblResultsDelta w |}.

(** [le.setText(...)] on the four line edits. *)
Definition set_lePropVal (a1 a2 a3 a4 : lineEdit) (w : main_window)
  : main_window :=
  {| currentUnits := currentUnits w; pUnits := pUnits w; tUnits := tUnits w;
     hUnits := hUnits w; uUnits := uUnits w; sUnits := sUnits w;
     vUnits := vUnits w;
     cmbProp1S1 := cmbProp1S1 w; cmbProp2S1 := cmbProp2S1 w;
     cmbProp1S2 := cmbProp1S2 w; cmbProp2S2 := cmbProp2S2 w;
     lePropVal1S1 := a1; lePropVal2S1 := a2;
     lePropVal1S2 := a3; lePropVal2S2 := a4;
     lblWarning := lblWarning w; lblResultsS1 := lblResultsS1 w;
     lblResultsS2 := lblResultsS2 w; lblResultsDelta := lblResultsDelta w |}.

End Window.

Definition main_window : Type := Window.main_window.

(** Formatting [self.f] with [:.3f]: [None] raises [TypeError]. *)
Definition fmt (a : option float) : result float :=
  match a with
  | Some a => Ok a
  | None => Raise TypeError
  end.

(** [a - b] on attributes: [None] raises [TypeError]. *)
Definition minus (a b : option float) : result float :=
  match a, b with
  | Some a, Some b => Ok (a - b)
  | _, _ => Raise TypeError
  end.

Definition rbind {A B} (r : result A) (k : A -> result B) : result B :=
  match r with
  | Ok a => k a
  | Raise e => Raise e
  end.

Notation "a <~ c ;; k" := (rbind c (fun a => k))
  (at level 61, c at next level, right associativity) : py_scope.

(** [main_window.makeLabel(st)] *)
Definition makeLabel (self : main_window) (st : thermoState) : result label :=
  pv <~ fmt (State.p st) ;;
  tv <~ fmt (State.t st) ;;
  uv <~ fmt (State.u st) ;;
  hv <~ fmt (State.h st) ;;
  sv <~ fmt (State.s st) ;;
  vv <~ fmt (State.v st) ;;
  xv <~ fmt (State.x st) ;;
  Ok [ RegionLine (State.region st);
       ValueLine "Pressure" pv 3 (Window.pUnits self);
       ValueLine "Temperature" tv 3 (Window.tUnits self);
       ValueLine "Internal Energy" uv 3 (Window.uUnits self);
       ValueLine "Enthalpy" hv 3 (Window.hUnits self);
       ValueLine "Entropy" sv 3 (Window.sUnits self);
       ValueLine "Specific Volume" vv 5 (Window.vUnits self);
       BareLine "Quality" xv 3 ].

(** [main_window.makeDeltaLabel(s1, s2)] *)
Definition makeDeltaLabel (self : main_window) (s1 s2 : thermoState)
  : result label :=
  dp <~ minus (State.p s2) (State.p s1) ;;
  dT <~ minus (State.t s2) (State.t s1) ;;
  du <~ minus (State.u s2) (State.u s1) ;;
  dh <~ minus (State.h s2) (State.h s1) ;;
  ds <~ minus (State.s s2) (State.s s1) ;;
  dv <~ minus (State.v s2) (State.v s1) ;;
  dx <~ minus (State.x s2) (State.x s1) ;;
  Ok [ ValueLine "ΔPressure" dp 3 (Window.pUnits self);
       ValueLine "ΔTemperature" dT 3 (Window.tUnits self);
       ValueLine "ΔInternal Energy" du 3 (Window.uUnits self);
       ValueLine "ΔEnthalpy" dh 3 (Window.hUnits self);
       ValueLine "ΔEntropy" ds 3 (Window.sUnits self);
       ValueLine "ΔSpecific Volume" dv 5 (Window.vUnits self);
       BareLine "ΔQuality" dx 3 ].

Section Calculation.

Variable XSteam_new : UnitSystem -> XSteam.

(** The two [except] clauses of [calculateProperties]. *)
Definition handler (self : main_window) (ex : exn) : main_window :=
  match ex with
  | ValueError _ => Window.set_lblWarning [ErrorLine ex] self
  | _ => Window.set_lblWarning [UnexpectedLine ex] self
  end.

(** [main_window.calculateProperties]: how the slot ends (it returns, or
    an exception leaves it) and the window as it is then.  The four
    [float(...)] calls stand before the [try]: a [ValueError] of theirs
    leaves the slot, with the warning cleared and nothing else done. *)
Definition calculateProperties (self : main_window)
  : result unit * main_window :=
  let self := Window.set_lblWarning [Text ""] self in
  let sp1S1 := shortProp (Window.cmbProp1S1 self) in
  let sp2S1 := shortProp (Window.cmbProp2S1 self) in
  match float_text (Window.lePropVal1S1 self) with
  | Raise ex => (Raise ex, self)
  | Ok val1S1 =>
  match float_text (Window.lePropVal2S1 self) with
  | Raise ex => (Raise ex, self)
  | Ok val2S1 =>
  let sp1S2 := shortProp (Window.cmbProp1S2 self) in
  let sp2S2 := shortProp (Window.cmbProp2S2 self) in
  match float_text (Window.lePropVal1S2 self) with
  | Raise ex => (Raise ex, self)
  | Ok val1S2 =>
  match float_text (Window.lePropVal2S2 self) with
  | Raise ex => (Raise ex, self)
  | Ok val2S2 =>
  if (sp1S1 =? sp2S1)%string then
    (Ok tt,
     Window.set_lblWarning
       [Text "State 1: cannot specify the same property twice."] self)
  else if (sp1S2 =? sp2S2)%string then
    (Ok tt,
     Window.set_lblWarning
       [Text "State 2: cannot specify the same property twice."] self)
  else
    let SI := (Window.currentUnits self =? "SI")%string in
    let s1 := init XSteam_new in
    let s2 := init XSteam_new in
    (Ok tt,
     match setState XSteam_new sp1S1 sp2S1 val1S1 val2S1 SI s1 with
     | (Raise ex, _) => handler self ex
     | (Ok _, s1) =>
     match setState XSteam_new sp1S2 sp2S2 val1S2 val2S2 SI s2 with
     | (Raise ex, _) => handler self ex
     | (Ok _, s2) =>
     match makeLabel self s1 with
     | Raise ex => handler self ex
     | Ok label1 =>
     match makeLabel self s2 with
     | Raise ex => handler self ex
     | Ok label2 =>
     match makeDeltaLabel self s1 s2 with
     | Raise ex => handler self ex
     | Ok labelDelta => Window.set_lblResults label1 label2 labelDelta self
     end end end end end)
  end end end end.

End Calculation.

(** ** main_window.setUnits *)

Module Form.

(** The widgets that [setUnits] reads or writes besides those of
    [Window.main_window]: the radio button [rdoSI] and the unit labels next
    to the four line edits. *)
Record form : Type := {
  window : main_window;
  rdoSI : bool;
  lblUnits1S1 : string;
  lblUnits2S1 : string;
  lblUnits1S2 : string;
  lblUnits2S2 : string
}.

Definition set_window (a : main_window) (f : form) : form :=
  {| window := a; rdoSI := rdoSI f;
     lblUnits1S1 := lblUnits1S1 f; lblUnits2S1 := lblUnits2S1 f;
     lblUnits1S2 := lblUnits1S2 f; lblUnits2S2 := lblUnits2S2 f |}.

Definition set_lblUnits (a1 a2 a3 a4 : string) (f : form) : form :=
  {| window := window f; rdoSI := rdoSI f;
     lblUnits1S1 := a1; lblUnits2S1 := a2;
     lblUnits1S2 := a3; lblUnits2S2 := a4 |}.

End Form.

Definition form : Type := Form.form.

(** The four property lines of the form ("S1P1, S1P2, S2P1, S2P2"), each
    with its combo box, its line edit and its unit label. *)
Inductive propertyLine : Type := S1P1 | S1P2 | S2P1 | S2P2.

Definition lineCombo (l : propertyLine) (f : form) : string :=
  match l with
  | S1P1 => Window.cmbProp1S1 (Form.window f)
  | S1P2 => Window.cmbProp2S1 (Form.window f)
  | S2P1 => Window.cmbProp1S2 (Form.window f)
  | S2P2 => Window.cmbProp2S2 (Form.window f)
  end.

Definition lineValue (l : propertyLine) (f : form) : lineEdit :=
  match l with
  | S1P1 => Window.lePropVal1S1 (Form.window f)
  | S1P2 => Window.lePropVal2S1 (Form.window f)
  | S2P1 => Window.lePropVal1S2 (Form.window f)
  | S2P2 => Window.lePropVal2S2 (Form.window f)
  end.

Definition lineUnits (l : propertyLine) (f : form) : string :=
  match l with
  | S1P1 => Form.lblUnits1S1 f
  | S1P2 => Form.lblUnits2S1 f
  | S2P1 => Form.lblUnits1S2 f
  | S2P2 => Form.lblUnits2S2 f
  end.

(** [leVal.setText(...)] on the line edit of a line. *)
Definition set_lineValue (l : propertyLine) (a : lineEdit) (f : form) : form :=
  let w := Form.window f in
  Form.set_window
    (Window.set_lePropVal
       (match l with S1P1 => a | _ => Window.lePropVal1S1 w end)
       (match l with S1P2 => a | _ => Window.lePropVal2S1 w end)
       (match l with S2P1 => a | _ => Window.lePropVal1S2 w end)
       (match l with S2P2 => a | _ => Window.lePropVal2S2 w end) w) f.

(** [lblUnits.setText(...)] on the unit label of a line. *)
Definition set_lineUnits (l : propertyLine) (a : string) (f : form) : form :=
  Form.set_lblUnits
    (match l with S1P1 => a | _ => Form.lblUnits1S1 f end)
    (match l with S1P2 => a | _ => Form.lblUnits2S1 f end)
    (match l with S2P1 => a | _ => Form.lblUnits1S2 f end)
    (match l with S2P2 => a | _ => Form.lblUnits2S2 f end) f.

(** The order in which [setUnits] goes through the four lines. *)
Definition lineIndex (l : propertyLine) : nat :=
  match l with S1P1 => 0 | S1P2 => 1 | S2P1 => 2 | S2P2 => 3 end.

(** [setUnits] finds the unit system changed: the radio button does not
    agree with [currentUnits]. *)
Definition toggled (f : form) : bool :=
  negb ((if Form.rdoSI f then "SI" else "EN")
        =? Window.currentUnits (Form.window f))%string.

Section Units.

Variable UC : UnitConversion.

(** [float(f"{val:.3f}")]: the number that a line edit holds after
    [leVal.setText(f"{val:.3f}")]. *)
Variable format3 : float -> float.

(** The local function [updateLineEdit] of [setUnits], on one property
    line.  [float(leVal.text())] comes first: when it raises, neither the
    unit label nor the line edit of the line has been written. *)
Definition updateLineEdit (unitChange oldIsSI SI : bool) (l : propertyLine)
    (f : form) : result unit * form :=
  let self := Form.window f in
  let propType := shortProp (lineCombo l f) in
  match float_text (lineValue l f) with
  | Raise ex => (Raise ex, f)
  | Ok val =>
      let val :=
        if unitChange then convertValue UC val propType oldIsSI SI else val in
      let f :=
        set_lineUnits l
          (if (propType =? "p")%string then Window.pUnits self
           else if (propType =? "t")%string then Window.tUnits self
           else if (propType =? "h")%string then Window.hUnits self
           else if (propType =? "u")%string then Window.uUnits self
           else if (propType =? "s")%string then Window.sUnits self
           else if (propType =? "v")%string then Window.vUnits self
           else "") f in
      (Ok tt, set_lineValue l (Number (format3 val)) f)
  end.

(** [main_window.setUnits]: how the slot ends and the form as it is
    then.  The four lines are updated in turn; a [ValueError] of [float]
    leaves the slot with [currentUnits], the unit strings and the lines
    before it already written. *)
Definition setUnits (f : form) : result unit * form :=
  let SI := Form.rdoSI f in
  let newUnits := if SI then "SI" else "EN" in
  let unitChange :=
    negb (newUnits =? Window.currentUnits (Form.window f))%string in
  let f :=
    Form.set_window
      (Window.set_units newUnits
         (if SI then "bar" else "psi")
         (if SI then "C" else "F")
         (if SI then "kJ/kg" else "btu/lb")
         (if SI then "kJ/kg" else "btu/lb")
         (if SI then "kJ/kg*C" else "btu/lb*F")
         (if SI then "m^3/kg" else "ft^3/lb")
         (Form.window f)) f in
  let oldIsSI := negb SI in
  match updateLineEdit unitChange oldIsSI SI S1P1 f with
  | (Raise ex, f) => (Raise ex, f)
  | (Ok _, f) =>
  match updateLineEdit unitChange oldIsSI SI S1P2 f with
  | (Raise ex, f) => (Raise ex, f)
  | (Ok _, f) =>
  match updateLineEdit unitChange oldIsSI SI S2P1 f with
  | (Raise ex, f) => (Raise ex, f)
  | (Ok _, f) => updateLineEdit unitChange oldIsSI SI S2P2 f
  end end end.

(** A line edit written anew by [f"{val:.3f}"]. *)
Definition reformat (le : lineEdit) : lineEdit :=
  match le with
  | Number val => Number (format3 val)
  | NoNumber text => NoNumber text
  end.

(** The form with its four line edits written anew and nothing else
    changed. *)
Definition reformatted (f : form) : form :=
  let w := Form.window f in
  Form.set_window
    (Window.set_lePropVal
       (reformat (Window.lePropVal1S1 w)) (reformat (Window.lePropVal2S1 w))
       (reformat (Window.lePropVal1S2 w)) (reformat (Window.lePropVal2S2 w))
       w) f.

End Units.

(** ** A small steam table to run the model on

    The program is run on concrete inputs against this stand-in for
    pyXSteam.  Its numbers are of the order of the properties of water near
    one atmosphere; no theorem depends on them.  Above 220 (bar or psi) its
    saturation line is undefined and the call raises. *)

Definition sampleTable (units : UnitSystem) : XSteam :=
  let tsat := match units with UNIT_SYSTEM_MKS => 99.606 | UNIT_SYSTEM_FLS => 211.29 end in
  {| tsat_p := fun p =>
       if 220.0 <? p then Raise (OtherException "pressure out of range")
       else Ok tsat;
     uL_p := fun _ => Ok 417.33;
     uV_p := fun _ => Ok 2505.5;
     hL_p := fun _ => Ok 417.44;
     hV_p := fun _ => Ok 2674.9;
     sL_p := fun _ => Ok 1.3026;
     sV_p := fun _ => Ok 7.3588;
     vL_p := fun _ => Ok 0.0010431;
     vV_p := fun _ => Ok 1.6939;
     u_pt := fun p t => Ok (4.0 * t);
     h_pt := fun p t => Ok (4.0 * t + p);
     s_pt := fun p t => Ok (0.0625 * t);
     v_pt := fun p t => Ok (0.001 * t) |}.

(** A window in its initial state: SI units, the combo boxes and line
    edits as [setupUi] leaves them. *)
Definition sampleWindow : main_window :=
  {| Window.currentUnits := "SI";
     Window.pUnits := "bar"; Window.tUnits := "C"; Window.hUnits := "kJ/kg";
     Window.uUnits := "kJ/kg"; Window.sUnits := "kJ/kg*C";
     Window.vUnits := "m^3/kg";
     Window.cmbProp1S1 := "Pressure (p)";
     Window.cmbProp2S1 := "Temperature (T)";
     Window.cmbProp1S2 := "Pressure (p)";
     Window.cmbProp2S2 := "Temperature (T)";
     Window.lePropVal1S1 := Number 1.0;
     Window.lePropVal2S1 := Number 100.0;
     Window.lePropVal1S2 := Number 1.0;
     Window.lePropVal2S2 := Number 200.0;
     Window.lblWarning := [Text ""];
     Window.lblResultsS1 := [Text "State 1 results here"];
     Window.lblResultsS2 := [Text "State 2 results here"];
     Window.lblResultsDelta := [Text "Differences here"] |}.

(** Conversion constants to run [convertValue] on: the usual factors
    between bar and psi, kJ/kg and btu/lb, and so on, rounded.  The general
    statements hold for every [UnitConversion]; these are the numbers of
    the runs on concrete inputs. *)
Definition sampleUC : UnitConversion :=
  {| bar_to_psi := 14.5038;
     psi_to_bar := 0.0689476;
     C_to_F := fun T => T * 1.8 + 32.0;
     F_to_C := fun T => (T - 32.0) / 1.8;
     kJperkg_to_btuperlb := 0.429923;
     btuperlb_to_kJperkg := 2.326;
     kJperkgC_to_btuperlbF := 0.238846;
     btuperlbF_to_kJperkgC := 4.1868;
     m3perkg_to_ft3perlb := 16.0185;
     ft3perlb_to_m3perkg := 0.062428 |}.

(** What [float(f"{val:.3f}")] gives: the decimal with three digits
    nearest to the exact value of [val] (ties to the even digit), read back
    as the nearest binary64 number.  Zeros, infinities and NaN are printed
    and read back as they are; from 2^43 on the spacing of binary64 numbers
    exceeds 0.001 and the number reads back as itself.  Below that the
    number of thousandths is under 2^53, so it and the quotient by 1000 are
    exact and correctly rounded. *)
Definition sampleFormat3 (v : float) : float :=
  match Prim2SF v with
  | S754_finite s m e =>
      if 8796093022208.0 <=? abs v then v
      else
        let num := (Z.pos m * 1000)%Z in
        let n :=
          if (0 <=? e)%Z then (num * 2 ^ e)%Z
          else
            let d := (2 ^ (- e))%Z in
            let q := (num / d)%Z in
            let r := (num mod d)%Z in
            if (2 * r <? d)%Z then q
            else if (d <? 2 * r)%Z then (q + 1)%Z
            else if Z.even q then q else (q + 1)%Z in
        let a := of_uint63 (Uint63.of_Z n) / 1000.0 in
        if s then - a else a
  | _ => v
  end.

(** The initial window with another content in the first line edit of
    state 1. *)
Definition sampleWindowWith (le : lineEdit) : main_window :=
  Window.set_lePropVal le (Window.lePropVal2S1 sampleWindow)
    (Window.lePropVal1S2 sampleWindow) (Window.lePropVal2S2 sampleWindow)
    sampleWindow.

(** That window with the radio button "English" just clicked. *)
Definition sampleFormEnglish (le : lineEdit) : form :=
  {| Form.window := sampleWindowWith le; Form.rdoSI := false;
     Form.lblUnits1S1 := "bar"; Form.lblUnits2S1 := "C";
     Form.lblUnits1S2 := "bar"; Form.lblUnits2S2 := "C" |}.


(** ** The property kinds of the combo boxes *)

Inductive PropertyKind : Type :=
| Pressure | Temperature | Quality | SpecificInternalEnergy
| SpecificEnthalpy | SpecificVolume | SpecificEntropy.

(** The entries that [setupUi] adds to each of the four combo boxes. *)
Definition comboText (k : PropertyKind) : string :=
  match k with
  | Pressure => "Pressure (p)"
  | Temperature => "Temperature (T)"
  | Quality => "Quality (x)"
  | SpecificInternalEnergy => "Specific Internal Energy (u)"
  | SpecificEnthalpy => "Specific Enthalpy (h)"
  | SpecificVolume => "Specific Volume (v)"
  | SpecificEntropy => "Specific Entropy (s)"
  end.

(** The short code under which a kind reaches [setState] and
    [convertValue]. *)
Definition code (k : PropertyKind) : string := shortProp (comboText k).

(** ** Notions used in the statements *)

(** A check passes: it returns without raising and leaves the object as it
    was. *)
Definition passes (c : M unit) : Prop := forall st, c st = (Ok tt, st).

(** The two properties are pressure and temperature, in either order, with
    values [pv] and [tv]. *)
Definition pt_inputs (prop1 prop2 : string) (val1 val2 pv tv : float) : Prop :=
  (normalize prop1 = "p" /\ normalize prop2 = "t" /\ pv = val1 /\ tv = val2) \/
  (normalize prop1 = "t" /\ normalize prop2 = "p" /\ pv = val2 /\ tv = val1).

(** The two properties are pressure and quality, in either order, with
    values [pv] and [xv]. *)
Definition px_inputs (prop1 prop2 : string) (val1 val2 pv xv : float) : Prop :=
  (normalize prop1 = "p" /\ normalize prop2 = "x" /\ pv = val1 /\ xv = val2) \/
  (normalize prop1 = "x" /\ normalize prop2 = "p" /\ pv = val2 /\ xv = val1).

(** The saturated-liquid and saturated-vapor calls at [pv] return
    [uf], [ug], ... *)
Definition saturation_values (tbl : XSteam) (pv uf ug hf hg sf sg vf vg : float)
  : Prop :=
  uL_p tbl pv = Ok uf /\ uV_p tbl pv = Ok ug /\
  hL_p tbl pv = Ok hf /\ hV_p tbl pv = Ok hg /\
  sL_p tbl pv = Ok sf /\ sV_p tbl pv = Ok sg /\
  vL_p tbl pv = Ok vf /\ vV_p tbl pv = Ok vg.

(** The single-phase calls at [(pv, tv)] return [uv], [hv], [sv], [vv]. *)
Definition single_phase_values (tbl : XSteam) (pv tv uv hv sv vv : float)
  : Prop :=
  u_pt tbl pv tv = Ok uv /\ h_pt tbl pv tv = Ok hv /\
  s_pt tbl pv tv = Ok sv /\ v_pt tbl pv tv = Ok vv.

(** The seven attributes of an object hold these floats. *)
Definition has_values (st : thermoState) (pv tv uv hv sv vv xv : float) : Prop :=
  State.p st = Some pv /\ State.t st = Some tv /\ State.u st = Some uv /\
  State.h st = Some hv /\ State.s st = Some sv /\ State.v st = Some vv /\
  State.x st = Some xv.

(** The four line edits of the window hold these numbers. *)
Definition holds_numbers (self : main_window)
    (val1S1 val2S1 val1S2 val2S2 : float) : Prop :=
  Window.lePropVal1S1 self = Number val1S1 /\
  Window.lePropVal2S1 self = Number val2S1 /\
  Window.lePropVal1S2 self = Number val1S2 /\
  Window.lePropVal2S2 self = Number val2S2.

(** All seven derived fields are set: each holds a float (which may be an
    infinity or NaN, as the steam table may return them), none is [None]. *)
Definition populated (st : thermoState) : Prop :=
  exists pv tv vv uv hv sv xv,
    State.p st = Some pv /\ State.t st = Some tv /\ State.v st = Some vv /\
    State.u st = Some uv /\ State.h st = Some hv /\ State.s st = Some sv /\
    State.x st = Some xv.

(** The quality that the single-phase branch records for a region. *)
Definition single_phase_x (region : string) (st : thermoState) : thermoState :=
  if (region =? "super-heated vapor")%string then State.set_x 1.0 st
  else if (region =? "sub-cooled liquid")%string then State.set_x 0.0 st
  else st.

(** The quality after the two clamping statements of the pressure-quality
    branch: [if x < 0.0: x = 0.0] and then [if x > 1.0: x = 1.0]. *)
Definition clamp01 (xv : float) : float :=
  let x1 := if xv <? 0.0 then 0.0 else xv in
  if 1.0 <? x1 then 1.0 else x1.

(** The two pairs of kinds that [setState] implements (its docstring:
    "Supported combinations: (p, t), (p, x)"), in either order. *)
Definition supported (k1 k2 : PropertyKind) : bool :=
  match k1, k2 with
  | Pressure, Temperature | Temperature, Pressure
  | Pressure, Quality | Quality, Pressure => true
  | _, _ => false
  end.

(** A string that does not begin with white space. *)
Definition no_lead (s : string) : bool :=
  match s with
  | EmptyString => true
  | String c _ => negb (Py.is_space c)
  end.

(** ** Proof tools *)

Ltac unfold_py :=
  unfold bind, assign, read, get, call, ret, raise.

(** Case analysis on an innermost test, field or call the goal is blocked on. *)
Ltac case_step :=
  match goal with
  | |- context [match ?e with _ => _ end] =>
      lazymatch e with
      | context [match _ with _ => _ end] => fail
      | _ => destruct e eqn:?
      end
  end.

Ltac exec := unfold_py; cbn; repeat (case_step; cbn).

(** ** Comparisons of binary64 numbers *)

Lemma SFcompare_swap (a b : spec_float) :
  SFcompare b a = option_map CompOpp (SFcompare a b).
Proof.
  destruct a as [sa|sa| |sa ma ea], b as [sb|sb| |sb mb eb]; cbn;
    try reflexivity;
    try (destruct sa; reflexivity); try (destruct sb; reflexivity);
    try (destruct sa, sb; reflexivity).
  destruct sa, sb; cbn; try reflexivity;
    rewrite (Z.compare_antisym ea eb);
    destruct (ea ?= eb)%Z; cbn; try reflexivity;
    change PosDef.Pos.compare_cont with Pos.compare_cont;
    rewrite (ZC4 mb ma); reflexivity.
Qed.

Lemma is_nan_SFcompare (a b : float) :
  is_nan a = false -> is_nan b = false ->
  exists c, SFcompare (Prim2SF a) (Prim2SF b) = Some c.
Proof.
  unfold is_nan. rewrite !FloatAxioms.eqb_spec. unfold SFeqb.
  destruct (Prim2SF a) as [sa|sa| |sa ma ea], (Prim2SF b) as [sb|sb| |sb mb eb];
    cbn; intros Ha Hb; try discriminate; eexists; reflexivity.
Qed.

(** Among numbers (no NaN), "not less than" is "greater or equal". *)
Lemma ltb_false_leb (a b : float) :
  is_nan a = false -> is_nan b = false -> (a <? b) = false -> (b <=? a) = true.
Proof.
  intros Ha Hb. destruct (is_nan_SFcompare a b Ha Hb) as [c Hc].
  rewrite FloatAxioms.ltb_spec, FloatAxioms.leb_spec. unfold SFltb, SFleb.
  rewrite (SFcompare_swap (Prim2SF a) (Prim2SF b)), Hc.
  destruct c; cbn; intros; try reflexivity; discriminate.
Qed.

Lemma SFcompare_refl (a : spec_float) :
  a <> S754_nan -> SFcompare a a = Some Eq.
Proof.
  destruct a as [sa|sa| |sa ma ea]; cbn; intros H;
    try congruence; try (destruct sa; reflexivity).
  destruct sa; rewrite Z.compare_refl;
    change PosDef.Pos.compare_cont with Pos.compare_cont;
    rewrite Pos.compare_cont_refl; reflexivity.
Qed.

(** Only numbers compare as smaller than something. *)
Lemma ltb_true_not_nan (a b : float) : (a <? b) = true -> is_nan a = false.
Proof.
  unfold is_nan. rewrite FloatAxioms.ltb_spec, FloatAxioms.eqb_spec.
  unfold SFltb, SFeqb. intros H.
  rewrite SFcompare_refl; [reflexivity|].
  intros E. rewrite E in H. discriminate.
Qed.

(** ** The bound checks *)

Lemma checkPressure_passes (pbar : float) :
  passes (checkPressure pbar) <->
  (pbar <=? 0.0) = false /\ (300.0 <? pbar) = false.
Proof.
  unfold passes, checkPressure, raise, ret. split.
  - intros H. specialize (H (init sampleTable)).
    destruct (pbar <=? 0.0); [discriminate|].
    destruct (300.0 <? pbar); [discriminate|]. auto.
  - intros [H1 H2] st. rewrite H1, H2. reflexivity.
Qed.

Lemma checkTemperature_passes (tC : float) :
  passes (checkTemperature tC) <->
  (tC <? 0.0) = false /\ (600.0 <? tC) = false.
Proof.
  unfold passes, checkTemperature, raise, ret. split.
  - intros H. specialize (H (init sampleTable)).
    destruct (tC <? 0.0); [discriminate|].
    destruct (600.0 <? tC); [discriminate|]. auto.
  - intros [H1 H2] st. rewrite H1, H2. reflexivity.
Qed.

(** A check never assigns. *)
Lemma checkPressure_state (pbar : float) (st : thermoState) :
  snd (checkPressure pbar st) = st.
Proof. unfold checkPressure, raise, ret. repeat case_step; reflexivity. Qed.

Lemma checkTemperature_state (tC : float) (st : thermoState) :
  snd (checkTemperature tC st) = st.
Proof. unfold checkTemperature, raise, ret. repeat case_step; reflexivity. Qed.

(** ** computeProperties *)

(** Whatever its outcome, [computeProperties] leaves the steam table, the
    region, the pressure and the temperature as they are. *)
Lemma computeProperties_frame (st : thermoState) :
  let st' := snd (computeProperties st) in
  State.steamTable st' = State.steamTable st /\
  State.region st' = State.region st /\
  State.p st' = State.p st /\ State.t st' = State.t st.
Proof.
  destruct st as [tbl r p t v u h s x].
  unfold computeProperties. exec; auto.
Qed.

(** In the two-phase region it leaves the quality as it is, too. *)
Lemma computeProperties_two_phase_x (st : thermoState) :
  State.region st = "two-phase" ->
  State.x (snd (computeProperties st)) = State.x st.
Proof.
  destruct st as [tbl r p t v u h s x]. cbn. intros ->.
  unfold computeProperties. exec; reflexivity.
Qed.

(** The two-phase branch: success and what it assigns. *)
Lemma computeProperties_two_phase_ok
    (st : thermoState) (pv xv uf ug hf hg sf sg vf vg : float) :
  State.region st = "two-phase" ->
  State.p st = Some pv -> State.x st = Some xv ->
  saturation_values (State.steamTable st) pv uf ug hf hg sf sg vf vg ->
  computeProperties st =
    (Ok tt,
     State.set_v (vf + xv * (vg - vf))
       (State.set_s (sf + xv * (sg - sf))
          (State.set_h (hf + xv * (hg - hf))
             (State.set_u (uf + xv * (ug - uf)) st)))).
Proof.
  intros Hr Hp Hx (H1 & H2 & H3 & H4 & H5 & H6 & H7 & H8).
  unfold computeProperties. unfold_py. cbn. rewrite Hr. cbn.
  repeat (rewrite ?Hp, ?Hx, ?H1, ?H2, ?H3, ?H4, ?H5, ?H6, ?H7, ?H8; cbn).
  reflexivity.
Qed.

Lemma computeProperties_two_phase_inv (st st' : thermoState) :
  State.region st = "two-phase" ->
  computeProperties st = (Ok tt, st') ->
  exists pv xv uf ug hf hg sf sg vf vg,
    State.p st = Some pv /\ State.x st = Some xv /\
    saturation_values (State.steamTable st) pv uf ug hf hg sf sg vf vg /\
    st' =
      State.set_v (vf + xv * (vg - vf))
        (State.set_s (sf + xv * (sg - sf))
           (State.set_h (hf + xv * (hg - hf))
              (State.set_u (uf + xv * (ug - uf)) st))).
Proof.
  destruct st as [tbl r p t v u h s x]. cbn. intros ->.
  unfold computeProperties, saturation_values. unfold_py. cbn.
  destruct p as [pv|]; [|discriminate]. cbn.
  destruct (uL_p tbl pv) as [uf|] eqn:E1; [|discriminate]. cbn.
  destruct (uV_p tbl pv) as [ug|] eqn:E2; [|discriminate]. cbn.
  destruct (hL_p tbl pv) as [hf|] eqn:E3; [|discriminate]. cbn.
  destruct (hV_p tbl pv) as [hg|] eqn:E4; [|discriminate]. cbn.
  destruct (sL_p tbl pv) as [sf|] eqn:E5; [|discriminate]. cbn.
  destruct (sV_p tbl pv) as [sg|] eqn:E6; [|discriminate]. cbn.
  destruct (vL_p tbl pv) as [vf|] eqn:E7; [|discriminate]. cbn.
  destruct (vV_p tbl pv) as [vg|] eqn:E8; [|discriminate]. cbn.
  destruct x as [xv|]; [|discriminate]. cbn.
  intros E. injection E as <-.
  exists pv, xv, uf, ug, hf, hg, sf, sg, vf, vg.
  repeat split; solve [assumption | reflexivity].
Qed.

Lemma computeProperties_single_ok
    (st : thermoState) (pv tv uv hv sv vv : float) :
  State.region st <> "two-phase" ->
  State.p st = Some pv -> State.t st = Some tv ->
  single_phase_values (State.steamTable st) pv tv uv hv sv vv ->
  computeProperties st =
    (Ok tt,
     single_phase_x (State.region st)
       (State.set_v vv (State.set_s sv (State.set_h hv (State.set_u uv st))))).
Proof.
  intros Hr Hp Ht (H1 & H2 & H3 & H4).
  apply String.eqb_neq in Hr.
  unfold computeProperties, single_phase_x. unfold_py. cbn. rewrite Hr.
  repeat (rewrite ?Hp, ?Ht, ?H1, ?H2, ?H3, ?H4; cbn).
  repeat (case_step; cbn); reflexivity.
Qed.

Lemma computeProperties_single_inv (st st' : thermoState) :
  State.region st <> "two-phase" ->
  computeProperties st = (Ok tt, st') ->
  exists pv tv uv hv sv vv,
    State.p st = Some pv /\ State.t st = Some tv /\
    single_phase_values (State.steamTable st) pv tv uv hv sv vv /\
    st' =
      single_phase_x (State.region st)
        (State.set_v vv (State.set_s sv (State.set_h hv (State.set_u uv st)))).
Proof.
  destruct st as [tbl r p t v u h s x]. cbn. intros Hr.
  apply String.eqb_neq in Hr.
  unfold computeProperties, single_phase_values, single_phase_x. unfold_py.
  cbn. rewrite Hr.
  destruct p as [pv|]; [|discriminate]. cbn.
  destruct t as [tv|]; [|discriminate]. cbn.
  destruct (u_pt tbl pv tv) as [uv|] eqn:E9; [|discriminate]. cbn.
  destruct (h_pt tbl pv tv) as [hv|] eqn:E10; [|discriminate]. cbn.
  destruct (s_pt tbl pv tv) as [sv|] eqn:E11; [|discriminate]. cbn.
  destruct (v_pt tbl pv tv) as [vv|] eqn:E12; [|discriminate]. cbn.
  intros E.
  exists pv, tv, uv, hv, sv, vv.
  repeat split; try solve [assumption | reflexivity].
  revert E. repeat (case_step; cbn); intros E; injection E as <-; reflexivity.
Qed.

(** ** setState, branch by branch *)

Arguments computeProperties : simpl never.

Lemma in_pair_true (a b c d : string) :
  a <> b ->
  Py.in_list a [c; d] && Py.in_list b [c; d] = true <->
  (c = a /\ d = b) \/ (c = b /\ d = a).
Proof.
  intros Hab. unfold Py.in_list. cbn.
  destruct (String.eqb_spec a c) as [Hac|Hac], (String.eqb_spec a d) as [Had|Had],
    (String.eqb_spec b c) as [Hbc|Hbc], (String.eqb_spec b d) as [Hbd|Hbd];
    cbn; split; intros H; try discriminate; try congruence; auto;
    try (destruct H as [[? ?]|[? ?]]; congruence).
Qed.

Section ResolverFacts.

Variable XSteam_new : UnitSystem -> XSteam.

(** The pressure-temperature branch, after the normalisation of the
    property names and the two assignments. *)
Lemma setState_pt (prop1 prop2 : string) (val1 val2 : float) (SI : bool)
    (pv tv : float) (st : thermoState) :
  pt_inputs prop1 prop2 val1 val2 pv tv ->
  setState XSteam_new prop1 prop2 val1 val2 SI st =
    (checkPressure pv ;; checkTemperature tv ;;
     tsat <- call (tsat_p (XSteam_new (units SI)) pv) ;;
     (if abs (tv - tsat) <? 0.0001 then
        assign (State.set_region "two-phase") ;; assign (State.set_x 0.5)
      else if tsat <? tv then assign (State.set_region "super-heated vapor")
      else assign (State.set_region "sub-cooled liquid")) ;;
     computeProperties)
    (State.set_t tv
       (State.set_p pv (State.set_steamTable (XSteam_new (units SI)) st))).
Proof.
  intros [(H1 & H2 & -> & ->)|(H1 & H2 & -> & ->)];
    unfold setState, checkPressure, checkTemperature; unfold_py;
    rewrite H1, H2; cbn; repeat (case_step; cbn); reflexivity.
Qed.

(** The pressure-quality branch. *)
Lemma setState_px (prop1 prop2 : string) (val1 val2 : float) (SI : bool)
    (pv xv : float) (st : thermoState) :
  px_inputs prop1 prop2 val1 val2 pv xv ->
  setState XSteam_new prop1 prop2 val1 val2 SI st =
    (checkPressure pv ;;
     assign (State.set_x (clamp01 xv)) ;;
     assign (State.set_region "two-phase") ;;
     tsat <- call (tsat_p (XSteam_new (units SI)) pv) ;;
     assign (State.set_t tsat) ;;
     checkTemperature tsat ;;
     computeProperties)
    (State.set_x xv
       (State.set_p pv (State.set_steamTable (XSteam_new (units SI)) st))).
Proof.
  intros [(H1 & H2 & -> & ->)|(H1 & H2 & -> & ->)];
    unfold setState, checkPressure, checkTemperature, clamp01; unfold_py;
    rewrite H1, H2; cbn; repeat (case_step; cbn); reflexivity.
Qed.

(** Every other pair of names reaches the final [raise]. *)
Lemma setState_other (prop1 prop2 : string) (val1 val2 : float) (SI : bool)
    (st : thermoState) :
  (forall pv tv, ~ pt_inputs prop1 prop2 val1 val2 pv tv) ->
  (forall pv xv, ~ px_inputs prop1 prop2 val1 val2 pv xv) ->
  setState XSteam_new prop1 prop2 val1 val2 SI st =
    (Raise (ValueError
              (ComboNotImplemented (normalize prop1) (normalize prop2))),
     State.set_steamTable (XSteam_new (units SI)) st).
Proof.
  intros Hpt Hpx. unfold setState. unfold_py.
  destruct (Py.in_list "p" [normalize prop1; normalize prop2]
            && Py.in_list "t" [normalize prop1; normalize prop2]) eqn:E1.
  { exfalso. apply in_pair_true in E1; [|discriminate].
    destruct E1 as [[H1 H2]|[H1 H2]].
    - apply (Hpt val1 val2). left. auto.
    - apply (Hpt val2 val1). right. auto. }
  destruct (Py.in_list "p" [normalize prop1; normalize prop2]
            && Py.in_list "x" [normalize prop1; normalize prop2]) eqn:E2.
  { exfalso. apply in_pair_true in E2; [|discriminate].
    destruct E2 as [[H1 H2]|[H1 H2]].
    - apply (Hpx val1 val2). left. auto.
    - apply (Hpx val2 val1). right. auto. }
  reflexivity.
Qed.

End ResolverFacts.

Arguments checkPressure : simpl never.
Arguments checkTemperature : simpl never.

Section Runs.

Variable XSteam_new : UnitSystem -> XSteam.

(** Past the checks and the saturation call, the pressure-temperature
    branch is [computeProperties] on the classified state. *)
Lemma setState_pt_run (prop1 prop2 : string) (val1 val2 : float) (SI : bool)
    (pv tv tsat : float) (st : thermoState) :
  pt_inputs prop1 prop2 val1 val2 pv tv ->
  passes (checkPressure pv) -> passes (checkTemperature tv) ->
  tsat_p (XSteam_new (units SI)) pv = Ok tsat ->
  setState XSteam_new prop1 prop2 val1 val2 SI st =
    computeProperties
      (let st0 :=
         State.set_t tv
           (State.set_p pv
              (State.set_steamTable (XSteam_new (units SI)) st)) in
       if abs (tv - tsat) <? 0.0001
       then State.set_x 0.5 (State.set_region "two-phase" st0)
       else if tsat <? tv then State.set_region "super-heated vapor" st0
       else State.set_region "sub-cooled liquid" st0).
Proof.
  intros Hin Hp Ht Hs.
  rewrite (setState_pt XSteam_new _ _ _ _ SI pv tv st Hin).
  unfold bind, call, assign. rewrite Hp, Ht, Hs. cbv zeta.
  destruct (abs (tv - tsat) <? 0.0001); [reflexivity|].
  destruct (tsat <? tv); reflexivity.
Qed.

(** Past the pressure check, the saturation call and the temperature
    check, the pressure-quality branch is [computeProperties] on the
    two-phase state with the clamped quality. *)
Lemma setState_px_run (prop1 prop2 : string) (val1 val2 : float) (SI : bool)
    (pv xv tsat : float) (st : thermoState) :
  px_inputs prop1 prop2 val1 val2 pv xv ->
  passes (checkPressure pv) ->
  tsat_p (XSteam_new (units SI)) pv = Ok tsat ->
  passes (checkTemperature tsat) ->
  setState XSteam_new prop1 prop2 val1 val2 SI st =
    computeProperties
      (State.set_t tsat
         (State.set_region "two-phase"
            (State.set_x (clamp01 xv)
               (State.set_p pv
                  (State.set_steamTable (XSteam_new (units SI)) st))))).
Proof.
  intros Hin Hp Hs Ht.
  rewrite (setState_px XSteam_new _ _ _ _ SI pv xv st Hin).
  unfold bind, call, assign. rewrite Hp, Hs, Ht. reflexivity.
Qed.

End Runs.

Section Claims.

Variable XSteam_new : UnitSystem -> XSteam.

(** C1.  For a pressure-temperature input that passes the two bound
    checks, with [tsat] the saturation temperature that the steam table
    returns at the pressure: when [|T - tsat| < 0.0001] the region is
    "two-phase" and the quality 0.5; otherwise when [T > tsat] the region is
    "super-heated vapor" and the quality 1.0; otherwise the region is
    "sub-cooled liquid" and the quality 0.0.  In each case the call returns
    normally as soon as the property calls of its branch do. *)
Theorem setState_pt_classifies
    (prop1 prop2 : string) (val1 val2 : float) (SI : bool)
    (pv tv tsat : float) (st : thermoState) :
  pt_inputs prop1 prop2 val1 val2 pv tv ->
  passes (checkPressure pv) -> passes (checkTemperature tv) ->
  tsat_p (XSteam_new (units SI)) pv = Ok tsat ->
  let r := setState XSteam_new prop1 prop2 val1 val2 SI st in
  let tbl := XSteam_new (units SI) in
  ((abs (tv - tsat) <? 0.0001) = true ->
     State.region (snd r) = "two-phase" /\ State.x (snd r) = Some 0.5 /\
     (forall uf ug hf hg sf sg vf vg,
         saturation_values tbl pv uf ug hf hg sf sg vf vg ->
         fst r = Ok tt)) /\
  ((abs (tv - tsat) <? 0.0001) = false -> (tsat <? tv) = true ->
     State.region (snd r) = "super-heated vapor" /\
     (fst r = Ok tt -> State.x (snd r) = Some 1.0) /\
     (forall uv hv sv vv,
         single_phase_values tbl pv tv uv hv sv vv -> fst r = Ok tt)) /\
  ((abs (tv - tsat) <? 0.0001) = false -> (tsat <? tv) = false ->
     State.region (snd r) = "sub-cooled liquid" /\
     (fst r = Ok tt -> State.x (snd r) = Some 0.0) /\
     (forall uv hv sv vv,
         single_phase_values tbl pv tv uv hv sv vv -> fst r = Ok tt)).
Proof.
  intros Hin Hp Ht Hs r tbl. subst r tbl.
  rewrite (setState_pt_run XSteam_new _ _ _ _ SI pv tv tsat st Hin Hp Ht Hs).
  cbv zeta. split; [|split].
  - intros ->.
    set (st1 := State.set_x _ _).
    assert (Hr : State.region st1 = "two-phase") by reflexivity.
    destruct (computeProperties_frame st1) as (_ & Hreg & _).
    split; [congruence|]. split.
    + rewrite (computeProperties_two_phase_x st1 Hr). reflexivity.
    + intros uf ug hf hg sf sg vf vg Hsat.
      erewrite computeProperties_two_phase_ok; eauto; reflexivity.
  - intros -> ->.
    set (st1 := State.set_region _ _).
    destruct (computeProperties_frame st1) as (_ & Hreg & _).
    split; [exact Hreg|]. split.
    + destruct (computeProperties st1) as [o st'] eqn:E. cbn.
      intros ->.
      apply computeProperties_single_inv in E; [|discriminate].
      destruct E as (? & ? & ? & ? & ? & ? & _ & _ & _ & ->). reflexivity.
    + intros uv hv sv vv Hv.
      erewrite computeProperties_single_ok; eauto; try reflexivity.
      discriminate.
  - intros -> ->.
    set (st1 := State.set_region _ _).
    destruct (computeProperties_frame st1) as (_ & Hreg & _).
    split; [exact Hreg|]. split.
    + destruct (computeProperties st1) as [o st'] eqn:E. cbn.
      intros ->.
      apply computeProperties_single_inv in E; [|discriminate].
      destruct E as (? & ? & ? & ? & ? & ? & _ & _ & _ & ->). reflexivity.
    + intros uv hv sv vv Hv.
      erewrite computeProperties_single_ok; eauto; try reflexivity.
      discriminate.
Qed.


(** The three branches cover every call. *)
Lemma setState_branches (prop1 prop2 : string) (val1 val2 : float) :
  (exists pv tv, pt_inputs prop1 prop2 val1 val2 pv tv) \/
  (exists pv xv, px_inputs prop1 prop2 val1 val2 pv xv) \/
  ((forall pv tv, ~ pt_inputs prop1 prop2 val1 val2 pv tv) /\
   (forall pv xv, ~ px_inputs prop1 prop2 val1 val2 pv xv)).
Proof.
  destruct (Py.in_list "p" [normalize prop1; normalize prop2]
            && Py.in_list "t" [normalize prop1; normalize prop2]) eqn:E1.
  { left. apply in_pair_true in E1; [|discriminate].
    destruct E1 as [[A B]|[A B]];
      [exists val1, val2; left | exists val2, val1; right]; auto. }
  destruct (Py.in_list "p" [normalize prop1; normalize prop2]
            && Py.in_list "x" [normalize prop1; normalize prop2]) eqn:E2.
  { right; left. apply in_pair_true in E2; [|discriminate].
    destruct E2 as [[A B]|[A B]];
      [exists val1, val2; left | exists val2, val1; right]; auto. }
  right; right; split; intros pv w Hc.
  - assert (Py.in_list "p" [normalize prop1; normalize prop2]
            && Py.in_list "t" [normalize prop1; normalize prop2] = true)
      by (apply in_pair_true; [discriminate|];
          destruct Hc as [(A & B & _)|(A & B & _)]; auto).
    congruence.
  - assert (Py.in_list "p" [normalize prop1; normalize prop2]
            && Py.in_list "x" [normalize prop1; normalize prop2] = true)
      by (apply in_pair_true; [discriminate|];
          destruct Hc as [(A & B & _)|(A & B & _)]; auto).
    congruence.
Qed.

(** The outcome of a call does not depend on the object it is called on. *)
Lemma setState_outcome_independent
    (prop1 prop2 : string) (val1 val2 : float) (SI : bool)
    (st1 st2 : thermoState) :
  fst (setState XSteam_new prop1 prop2 val1 val2 SI st1) =
  fst (setState XSteam_new prop1 prop2 val1 val2 SI st2).
Proof.
  destruct (setState_branches prop1 prop2 val1 val2)
    as [(pv & tv & H)|[(pv & xv & H)|(H1 & H2)]].
  - rewrite !(setState_pt XSteam_new _ _ _ _ SI pv tv _ H).
    unfold checkPressure, checkTemperature, computeProperties.
    exec; reflexivity.
  - rewrite !(setState_px XSteam_new _ _ _ _ SI pv xv _ H).
    unfold checkPressure, checkTemperature, computeProperties.
    exec; reflexivity.
  - rewrite !setState_other by assumption. reflexivity.
Qed.

(** A call that returns normally has overwritten every attribute: the
    resulting object does not depend on the one it was called on. *)
Lemma setState_ok_independent
    (prop1 prop2 : string) (val1 val2 : float) (SI : bool)
    (st1 st2 st' : thermoState) :
  setState XSteam_new prop1 prop2 val1 val2 SI st1 = (Ok tt, st') ->
  setState XSteam_new prop1 prop2 val1 val2 SI st2 = (Ok tt, st') /\
  populated st'.
Proof.
  unfold populated.
  destruct (setState_branches prop1 prop2 val1 val2)
    as [(pv & tv & H)|[(pv & xv & H)|(H1 & H2)]].
  - rewrite !(setState_pt XSteam_new _ _ _ _ SI pv tv _ H).
    unfold checkPressure, checkTemperature, computeProperties.
    exec; try discriminate;
      (intros E; injection E as <-; split; [reflexivity|cbn; eauto 20]).
  - rewrite !(setState_px XSteam_new _ _ _ _ SI pv xv _ H).
    unfold checkPressure, checkTemperature, computeProperties.
    exec; try discriminate;
      (intros E; injection E as <-; split; [reflexivity|cbn; eauto 20]).
  - rewrite !setState_other by assumption. discriminate.
Qed.


(** A check that passes is skipped over. *)
Lemma bind_passes {B : Type} (c : M unit) (k : unit -> M B)
    (st : thermoState) :
  passes c -> bind c k st = k tt st.
Proof. intros H. unfold bind. rewrite H. reflexivity. Qed.

(** The clamped quality of a number lies in [0, 1]. *)
Lemma clamp01_range (xv : float) :
  is_nan xv = false ->
  (0.0 <=? clamp01 xv) = true /\ (clamp01 xv <=? 1.0) = true.
Proof.
  intros Hn. unfold clamp01.
  destruct (xv <? 0.0) eqn:E1.
  - split; reflexivity.
  - cbv zeta. destruct (1.0 <? xv) eqn:E2.
    + split; reflexivity.
    + split.
      * apply ltb_false_leb; [exact Hn | reflexivity | exact E1].
      * apply ltb_false_leb; [reflexivity | exact Hn | exact E2].
Qed.

(** It is the quality itself when that lies in [0, 1] already. *)
Lemma clamp01_id (xv : float) :
  (xv <? 0.0) = false -> (1.0 <? xv) = false -> clamp01 xv = xv.
Proof. intros E1 E2. unfold clamp01. rewrite E1. cbv zeta. rewrite E2. reflexivity. Qed.

(** C2 (what the code does).  For a pressure-quality input whose pressure
    passes the check, with [tsat] the saturation temperature that the steam
    table returns: the region is "two-phase", the temperature is [tsat], the
    quality is the one that the two comparisons of the clamping leave, which
    lies in [0, 1] whenever the given quality is a number; [tsat] is checked
    against [0, 600]; and the outcome of the call is the same for every
    quality: none is rejected.  On NaN both comparisons are false and the
    quality stays NaN. *)
Theorem setState_px_clamps
    (prop1 prop2 : string) (val1 val2 : float) (SI : bool)
    (pv xv tsat : float) (st : thermoState) :
  px_inputs prop1 prop2 val1 val2 pv xv ->
  passes (checkPressure pv) ->
  tsat_p (XSteam_new (units SI)) pv = Ok tsat ->
  let r := setState XSteam_new prop1 prop2 val1 val2 SI st in
  let tbl := XSteam_new (units SI) in
  State.region (snd r) = "two-phase" /\
  State.t (snd r) = Some tsat /\
  State.x (snd r) = Some (clamp01 xv) /\
  (is_nan xv = false ->
     (0.0 <=? clamp01 xv) = true /\ (clamp01 xv <=? 1.0) = true) /\
  ((tsat <? 0.0) = true ->
     fst r = Raise (ValueError (TemperatureBelow0 tsat))) /\
  ((tsat <? 0.0) = false -> (600.0 <? tsat) = true ->
     fst r = Raise (ValueError (TemperatureAbove600 tsat))) /\
  (passes (checkTemperature tsat) ->
     forall uf ug hf hg sf sg vf vg,
       saturation_values tbl pv uf ug hf hg sf sg vf vg -> fst r = Ok tt) /\
  (forall val1' val2' xv' st',
      px_inputs prop1 prop2 val1' val2' pv xv' ->
      fst (setState XSteam_new prop1 prop2 val1' val2' SI st') = fst r).
Proof.
  intros Hin Hp Hs r tbl. subst r tbl.
  assert (Hrun :
    setState XSteam_new prop1 prop2 val1 val2 SI st =
      (checkTemperature tsat ;; computeProperties)
        (State.set_t tsat
           (State.set_region "two-phase"
              (State.set_x (clamp01 xv)
                 (State.set_p pv
                    (State.set_steamTable (XSteam_new (units SI)) st)))))).
  { rewrite (setState_px XSteam_new _ _ _ _ SI pv xv st Hin).
    rewrite (bind_passes _ _ _ Hp). unfold bind, call, assign.
    rewrite Hs. reflexivity. }
  set (st1 := State.set_t tsat _) in Hrun.
  assert (Hreg : State.region st1 = "two-phase") by reflexivity.
  assert (Hfr : State.region (snd (setState XSteam_new prop1 prop2 val1 val2 SI st))
                = "two-phase"
                /\ State.t (snd (setState XSteam_new prop1 prop2 val1 val2 SI st))
                   = Some tsat
                /\ State.x (snd (setState XSteam_new prop1 prop2 val1 val2 SI st))
                   = Some (clamp01 xv)).
  { rewrite Hrun. unfold bind.
    pose proof (checkTemperature_state tsat st1) as Hst.
    destruct (checkTemperature tsat st1) as [o s1]. cbn in Hst. subst s1.
    destruct o as [[]|e]; [|repeat split; reflexivity].
    destruct (computeProperties_frame st1) as (_ & H1 & _ & H2).
    pose proof (computeProperties_two_phase_x st1 Hreg) as H3.
    rewrite H1, H2, H3. repeat split; reflexivity. }
  destruct Hfr as (F1 & F2 & F3).
  split; [exact F1|]. split; [exact F2|]. split; [exact F3|].
  split; [apply clamp01_range|].
  split; [|split; [|split]].
  - intros E. rewrite Hrun. unfold bind, checkTemperature, raise.
    rewrite E. reflexivity.
  - intros E1 E2. rewrite Hrun. unfold bind, checkTemperature, raise.
    rewrite E1, E2. reflexivity.
  - intros Ht uf ug hf hg sf sg vf vg Hv. rewrite Hrun. unfold bind.
    rewrite Ht.
    erewrite computeProperties_two_phase_ok; eauto; reflexivity.
  - intros val1' val2' xv' st' Hin'.
    rewrite (setState_px XSteam_new _ _ _ _ SI pv xv st Hin).
    rewrite (setState_px XSteam_new _ _ _ _ SI pv xv' st' Hin').
    rewrite !(bind_passes _ _ _ Hp).
    unfold bind, call, assign. rewrite Hs.
    unfold checkTemperature, computeProperties. exec; reflexivity.
Qed.

(** C3 (what the code does).  The pressure is compared with 0 and 300 as
    it is given, whichever the unit system: under [SI = False] the value is
    in psi, and is compared with 0 and 300 all the same. *)
Theorem checkPressure_unscaled
    (prop1 prop2 : string) (val1 val2 : float) (SI : bool)
    (pv tv : float) (st : thermoState) :
  pt_inputs prop1 prop2 val1 val2 pv tv ->
  let r := fst (setState XSteam_new prop1 prop2 val1 val2 SI st) in
  ((pv <=? 0.0) = true -> r = Raise (ValueError (InvalidPressure pv))) /\
  ((pv <=? 0.0) = false -> (300.0 <? pv) = true ->
     r = Raise (ValueError (PressureAboveLimit pv))) /\
  passes (checkPressure 300.0).
Proof.
  intros Hin r. subst r.
  rewrite (setState_pt XSteam_new _ _ _ _ SI pv tv st Hin).
  unfold bind at 1. unfold checkPressure, raise, ret.
  split; [|split].
  - intros ->. reflexivity.
  - intros -> ->. reflexivity.
  - intros s. reflexivity.
Qed.


Arguments setState : simpl never.
Arguments shortProp : simpl never.
Arguments makeLabel : simpl never.
Arguments makeDeltaLabel : simpl never.

(** A check that lets a value through passes on every object and assigns
    nothing. *)
Lemma checkPressure_ok (pbar : float) (st st' : thermoState) :
  checkPressure pbar st = (Ok tt, st') ->
  passes (checkPressure pbar) /\ st' = st.
Proof.
  unfold checkPressure, raise, ret. intros H. split.
  - apply checkPressure_passes.
    destruct (pbar <=? 0.0); [discriminate|].
    destruct (300.0 <? pbar); [discriminate|]. auto.
  - revert H. repeat case_step; intros H; try discriminate.
    injection H as <-. reflexivity.
Qed.

Lemma checkTemperature_ok (tC : float) (st st' : thermoState) :
  checkTemperature tC st = (Ok tt, st') ->
  passes (checkTemperature tC) /\ st' = st.
Proof.
  unfold checkTemperature, raise, ret. intros H. split.
  - apply checkTemperature_passes.
    destruct (tC <? 0.0); [discriminate|].
    destruct (600.0 <? tC); [discriminate|]. auto.
  - revert H. repeat case_step; intros H; try discriminate.
    injection H as <-. reflexivity.
Qed.

(** A call that returns normally went through one of the two branches,
    passed its checks and got a saturation temperature. *)
Lemma setState_ok_inv
    (prop1 prop2 : string) (val1 val2 : float) (SI : bool)
    (st st' : thermoState) :
  setState XSteam_new prop1 prop2 val1 val2 SI st = (Ok tt, st') ->
  let st0 := State.set_steamTable (XSteam_new (units SI)) st in
  (exists pv tv tsat,
      pt_inputs prop1 prop2 val1 val2 pv tv /\
      passes (checkPressure pv) /\ passes (checkTemperature tv) /\
      tsat_p (XSteam_new (units SI)) pv = Ok tsat /\
      computeProperties
        (let st1 := State.set_t tv (State.set_p pv st0) in
         if abs (tv - tsat) <? 0.0001
         then State.set_x 0.5 (State.set_region "two-phase" st1)
         else if tsat <? tv then State.set_region "super-heated vapor" st1
         else State.set_region "sub-cooled liquid" st1) = (Ok tt, st')) \/
  (exists pv xv tsat,
      px_inputs prop1 prop2 val1 val2 pv xv /\
      passes (checkPressure pv) /\
      tsat_p (XSteam_new (units SI)) pv = Ok tsat /\
      passes (checkTemperature tsat) /\
      computeProperties
        (State.set_t tsat
           (State.set_region "two-phase"
              (State.set_x (clamp01 xv) (State.set_p pv st0)))) = (Ok tt, st')).
Proof.
  intros Hok st0. subst st0.
  destruct (setState_branches prop1 prop2 val1 val2)
    as [(pv & tv & H)|[(pv & xv & H)|(H1 & H2)]].
  - left. exists pv, tv.
    pose proof Hok as Hok'.
    rewrite (setState_pt XSteam_new _ _ _ _ SI pv tv _ H) in Hok'.
    revert Hok'. unfold bind at 1.
    destruct (checkPressure pv _) as [[[]|e] s1] eqn:E1; [|discriminate].
    apply checkPressure_ok in E1. destruct E1 as [Hp ->].
    unfold bind at 1.
    destruct (checkTemperature tv _) as [[[]|e] s2] eqn:E2; [|discriminate].
    apply checkTemperature_ok in E2. destruct E2 as [Ht ->].
    unfold bind at 1. unfold call.
    destruct (tsat_p _ pv) as [tsat|e] eqn:E3; [|discriminate].
    intros _. exists tsat. repeat (split; [assumption || reflexivity|]).
    rewrite <- Hok.
    symmetry. apply setState_pt_run; assumption.
  - right. exists pv, xv.
    pose proof Hok as Hok'.
    rewrite (setState_px XSteam_new _ _ _ _ SI pv xv _ H) in Hok'.
    revert Hok'. unfold bind at 1.
    destruct (checkPressure pv _) as [[[]|e] s1] eqn:E1; [|discriminate].
    apply checkPressure_ok in E1. destruct E1 as [Hp ->].
    unfold bind, assign, call.
    destruct (tsat_p _ pv) as [tsat|e] eqn:E3; [|discriminate].
    destruct (checkTemperature tsat _) as [[[]|e] s2] eqn:E2; [|discriminate].
    apply checkTemperature_ok in E2. destruct E2 as [Ht ->].
    intros _. exists tsat. repeat (split; [assumption || reflexivity|]).
    rewrite <- Hok.
    symmetry. apply setState_px_run; assumption.
  - rewrite setState_other in Hok by assumption. discriminate.
Qed.

(** C7.  Whenever a call returns normally with the region "two-phase",
    the object holds the pressure that was given, with the quality 0.5 for a
    pressure-temperature input and the clamped given quality for a
    pressure-quality input, and each of u, h, s, v is the saturated-liquid
    value of the steam table at that pressure plus the quality times the
    difference between the saturated-vapor and the saturated-liquid values
    at that pressure. *)
Theorem two_phase_interpolation
    (prop1 prop2 : string) (val1 val2 : float) (SI : bool)
    (st st' : thermoState) :
  setState XSteam_new prop1 prop2 val1 val2 SI st = (Ok tt, st') ->
  State.region st' = "two-phase" ->
  exists pv w xv uf ug hf hg sf sg vf vg,
    ((pt_inputs prop1 prop2 val1 val2 pv w /\ xv = 0.5) \/
     (px_inputs prop1 prop2 val1 val2 pv w /\ xv = clamp01 w)) /\
    State.steamTable st' = XSteam_new (units SI) /\
    State.p st' = Some pv /\ State.x st' = Some xv /\
    saturation_values (XSteam_new (units SI)) pv uf ug hf hg sf sg vf vg /\
    State.u st' = Some (uf + xv * (ug - uf)) /\
    State.h st' = Some (hf + xv * (hg - hf)) /\
    State.s st' = Some (sf + xv * (sg - sf)) /\
    State.v st' = Some (vf + xv * (vg - vf)).
Proof.
  intros Hok Hreg.
  destruct (setState_ok_inv _ _ _ _ _ _ _ Hok)
    as [(pv & tv & tsat & Hin & Hp & Ht & Hs & Hc)
       |(pv & x0 & tsat & Hin & Hp & Hs & Ht & Hc)]; cbv zeta in Hc.
  - match type of Hc with
    | computeProperties ?s = _ =>
        destruct (computeProperties_frame s) as (_ & F & _);
        rewrite Hc in F; cbn [snd] in F; rewrite Hreg in F
    end.
    destruct (abs (tv - tsat) <? 0.0001);
      [|destruct (tsat <? tv); discriminate F].
    match type of Hc with
    | computeProperties ?s = _ =>
        destruct (computeProperties_two_phase_inv s st' eq_refl Hc)
          as (pv' & xv & uf & ug & hf & hg & sf & sg & vf & vg
              & Hp' & Hx' & Hv & ->)
    end.
    cbn in Hp', Hx', Hv. injection Hp' as <-. injection Hx' as <-.
    exists pv, tv, 0.5, uf, ug, hf, hg, sf, sg, vf, vg.
    cbn. repeat split; solve [reflexivity | apply Hv | left; auto].
  - match type of Hc with
    | computeProperties ?s = _ =>
        destruct (computeProperties_two_phase_inv s st' eq_refl Hc)
          as (pv' & xv & uf & ug & hf & hg & sf & sg & vf & vg
              & Hp' & Hx' & Hv & ->)
    end.
    cbn in Hp', Hx', Hv. injection Hp' as <-. injection Hx' as <-.
    exists pv, x0, (clamp01 x0), uf, ug, hf, hg, sf, sg, vf, vg.
    cbn. repeat split; solve [reflexivity | apply Hv | right; auto].
Qed.

(** C6.  For every pair of distinct kinds other than pressure with
    temperature and pressure with quality, [setState] raises the
    [ValueError] "Property combo (..., ...) not implemented yet." and has
    assigned the steam table only; [calculateProperties] (the four line
    edits holding numbers and state 2 having two different names) shows it
    as the warning and leaves the result labels as they are. *)
Theorem unsupported_combination_rejected
    (k1 k2 : PropertyKind) (val1 val2 : float) (SI : bool)
    (st : thermoState) :
  k1 <> k2 -> supported k1 k2 = false ->
  setState XSteam_new (code k1) (code k2) val1 val2 SI st =
    (Raise (ValueError (ComboNotImplemented (code k1) (code k2))),
     State.set_steamTable (XSteam_new (units SI)) st)
  /\
  forall self val1S1 val2S1 val1S2 val2S2,
    holds_numbers self val1S1 val2S1 val1S2 val2S2 ->
    Window.cmbProp1S1 self = comboText k1 ->
    Window.cmbProp2S1 self = comboText k2 ->
    shortProp (Window.cmbProp1S2 self) <> shortProp (Window.cmbProp2S2 self) ->
    calculateProperties XSteam_new self =
      (Ok tt,
       Window.set_lblWarning
         [ErrorLine (ValueError (ComboNotImplemented (code k1) (code k2)))]
         self).
Proof.
  intros Hne Hsup.
  assert (Hset : forall v1 v2 b s0,
    setState XSteam_new (code k1) (code k2) v1 v2 b s0 =
      (Raise (ValueError (ComboNotImplemented (code k1) (code k2))),
       State.set_steamTable (XSteam_new (units b)) s0)).
  { intros v1 v2 b s0.
    destruct k1, k2; try congruence; try discriminate; reflexivity. }
  split; [apply Hset|].
  intros self v11 v21 v12 v22 (N1 & N2 & N3 & N4) E1 E2 N.
  unfold calculateProperties. cbn.
  rewrite N1, N2, N3, N4. cbn.
  rewrite E1, E2. fold (code k1). fold (code k2).
  assert (Hc : (code k1 =? code k2)%string = false)
    by (destruct k1, k2; try congruence; reflexivity).
  apply String.eqb_neq in N. rewrite Hc, N, Hset. reflexivity.
Qed.



(** The labels of an object whose seven attributes are set. *)
Lemma makeLabel_populated (self : main_window) (st : thermoState) :
  populated st -> exists l, makeLabel self st = Ok l.
Proof.
  intros (pv & tv & vv & uv & hv & sv & xv & Hp & Ht & Hv & Hu & Hh & Hs & Hx).
  unfold makeLabel, rbind, fmt. rewrite Hp, Ht, Hv, Hu, Hh, Hs, Hx.
  eexists. reflexivity.
Qed.

Lemma makeDeltaLabel_populated (self : main_window) (s1 s2 : thermoState) :
  populated s1 -> populated s2 -> exists l, makeDeltaLabel self s1 s2 = Ok l.
Proof.
  intros (pv & tv & vv & uv & hv & sv & xv & Hp & Ht & Hv & Hu & Hh & Hs & Hx).
  intros (pv' & tv' & vv' & uv' & hv' & sv' & xv'
          & Hp' & Ht' & Hv' & Hu' & Hh' & Hs' & Hx').
  unfold makeDeltaLabel, rbind, minus.
  rewrite Hp, Ht, Hv, Hu, Hh, Hs, Hx, Hp', Ht', Hv', Hu', Hh', Hs', Hx'.
  eexists. reflexivity.
Qed.

(** C4 (as amended).  A failed [setState] can leave some attributes
    assigned, but (1) the outcome of a call never depends on what the
    object held before, (2) a call that returns normally has assigned all
    seven properties, to floats that do not depend on what the object held
    before, and (3) [calculateProperties] ends in one of three ways: a line
    edit holds no number, and the [ValueError] of [float] leaves the slot
    with the warning cleared and nothing else changed; or it returns with a
    warning shown and the three result labels as they were; or it returns
    with the warning cleared and the three labels set from two objects on
    which [setState] returned normally. *)
Theorem failure_contained :
  (forall prop1 prop2 val1 val2 SI st1 st2,
      fst (setState XSteam_new prop1 prop2 val1 val2 SI st1) =
      fst (setState XSteam_new prop1 prop2 val1 val2 SI st2)) /\
  (forall prop1 prop2 val1 val2 SI st1 st2 st',
      setState XSteam_new prop1 prop2 val1 val2 SI st1 = (Ok tt, st') ->
      setState XSteam_new prop1 prop2 val1 val2 SI st2 = (Ok tt, st') /\
      populated st') /\
  (forall self,
      let r := calculateProperties XSteam_new self in
      let self' := snd r in
      let SI := (Window.currentUnits self =? "SI")%string in
      (exists text,
         In (NoNumber text)
            [Window.lePropVal1S1 self; Window.lePropVal2S1 self;
             Window.lePropVal1S2 self; Window.lePropVal2S2 self] /\
         r = (Raise (ValueError (CouldNotConvert text)),
              Window.set_lblWarning [Text ""] self)) \/
      (fst r = Ok tt /\
       Window.lblWarning self' <> [Text ""] /\
       Window.lblResultsS1 self' = Window.lblResultsS1 self /\
       Window.lblResultsS2 self' = Window.lblResultsS2 self /\
       Window.lblResultsDelta self' = Window.lblResultsDelta self) \/
      (fst r = Ok tt /\
       Window.lblWarning self' = [Text ""] /\
       exists val1S1 val2S1 val1S2 val2S2 s1 s2,
         holds_numbers self val1S1 val2S1 val1S2 val2S2 /\
         setState XSteam_new
           (shortProp (Window.cmbProp1S1 self))
           (shortProp (Window.cmbProp2S1 self))
           val1S1 val2S1 SI (init XSteam_new) = (Ok tt, s1) /\
         setState XSteam_new
           (shortProp (Window.cmbProp1S2 self))
           (shortProp (Window.cmbProp2S2 self))
           val1S2 val2S2 SI (init XSteam_new) = (Ok tt, s2) /\
         populated s1 /\ populated s2 /\
         makeLabel self s1 = Ok (Window.lblResultsS1 self') /\
         makeLabel self s2 = Ok (Window.lblResultsS2 self') /\
         makeDeltaLabel self s1 s2 = Ok (Window.lblResultsDelta self'))).
Proof.
  split; [exact setState_outcome_independent|].
  split; [exact setState_ok_independent|].
  intros self r self' SI. subst r self' SI.
  unfold calculateProperties. cbn.
  destruct (Window.lePropVal1S1 self) as [v11|t11] eqn:N1;
    [|left; exists t11; cbn; auto]. cbn.
  destruct (Window.lePropVal2S1 self) as [v21|t21] eqn:N2;
    [|left; exists t21; cbn; auto]. cbn.
  destruct (Window.lePropVal1S2 self) as [v12|t12] eqn:N3;
    [|left; exists t12; cbn; auto]. cbn.
  destruct (Window.lePropVal2S2 self) as [v22|t22] eqn:N4;
    [|left; exists t22; cbn; auto 6]. cbn.
  right.
  destruct (_ =? _)%string;
    [left; cbn; repeat split; try reflexivity; discriminate|].
  destruct (_ =? _)%string;
    [left; cbn; repeat split; try reflexivity; discriminate|].
  destruct (setState XSteam_new (shortProp (Window.cmbProp1S1 self)) _ _ _ _ _)
    as [[[]|e1] s1] eqn:E1;
    [|left; destruct e1; cbn; repeat split; try reflexivity; discriminate].
  destruct (setState XSteam_new (shortProp (Window.cmbProp1S2 self)) _ _ _ _ _)
    as [[[]|e2] s2] eqn:E2;
    [|left; destruct e2; cbn; repeat split; try reflexivity; discriminate].
  destruct (setState_ok_independent _ _ _ _ _ _ (init XSteam_new) _ E1)
    as [_ P1].
  destruct (setState_ok_independent _ _ _ _ _ _ (init XSteam_new) _ E2)
    as [_ P2].
  destruct (makeLabel_populated (Window.set_lblWarning [Text ""] self) s1 P1)
    as [l1 L1].
  destruct (makeLabel_populated (Window.set_lblWarning [Text ""] self) s2 P2)
    as [l2 L2].
  destruct (makeDeltaLabel_populated
              (Window.set_lblWarning [Text ""] self) s1 s2 P1 P2) as [ld Ld].
  rewrite L1, L2, Ld. right. cbn. split; [reflexivity|]. split; [reflexivity|].
  exists v11, v21, v12, v22, s1, s2.
  unfold holds_numbers. repeat split; assumption || reflexivity.
Qed.

End Claims.

(** ** Unit conversion *)

Section ConversionFacts.

Variable UC : UnitConversion.


(** Quality is never converted. *)
Lemma convertValue_quality (val : float) (oldIsSI newIsSI : bool) :
  convertValue UC val "x" oldIsSI newIsSI = val.
Proof. unfold convertValue. destruct (Bool.eqb _ _); reflexivity. Qed.


(** C10.  For a property code that is none of 'p', 't', 'h', 'u', 's', 'v',
    'x', [convertValue] returns the value it was given, also between
    different unit systems; being a total function to numbers, it does not
    raise. *)
Theorem convertValue_unrecognised
    (val : float) (propType : string) (oldIsSI newIsSI : bool) :
  ~ In propType ["p"; "t"; "h"; "u"; "s"; "v"; "x"]%string ->
  convertValue UC val propType oldIsSI newIsSI = val.
Proof.
  intros Hnot. unfold convertValue, Py.in_list. cbn [existsb].
  assert (N : forall c, In c ["p"; "t"; "h"; "u"; "s"; "v"; "x"]%string ->
                        (propType =? c)%string = false).
  { intros c Hc. apply String.eqb_neq. intros ->. exact (Hnot Hc). }
  rewrite !N by (cbn; tauto).
  destruct (Bool.eqb _ _); reflexivity.
Qed.

End ConversionFacts.

(** ** The delta report *)

(** C9.  For two objects whose seven attributes are numbers, the delta
    label is made of exactly seven lines, each the attribute of state 2 minus
    that of state 1, labelled with the units of the window; the numbers are
    subtracted as they are, and neither the regions nor the steam tables of
    the two objects have any part in it. *)
Theorem makeDeltaLabel_differences
    (self : main_window) (s1 s2 : thermoState)
    (p1 t1 u1 h1 e1 v1 x1 p2 t2 u2 h2 e2 v2 x2 : float) :
  has_values s1 p1 t1 u1 h1 e1 v1 x1 ->
  has_values s2 p2 t2 u2 h2 e2 v2 x2 ->
  makeDeltaLabel self s1 s2 =
    Ok [ ValueLine "ΔPressure" (p2 - p1) 3 (Window.pUnits self);
         ValueLine "ΔTemperature" (t2 - t1) 3 (Window.tUnits self);
         ValueLine "ΔInternal Energy" (u2 - u1) 3 (Window.uUnits self);
         ValueLine "ΔEnthalpy" (h2 - h1) 3 (Window.hUnits self);
         ValueLine "ΔEntropy" (e2 - e1) 3 (Window.sUnits self);
         ValueLine "ΔSpecific Volume" (v2 - v1) 5 (Window.vUnits self);
         BareLine "ΔQuality" (x2 - x1) 3 ] /\
  forall tbl1 tbl2 r1 r2,
    makeDeltaLabel self
      (State.set_region r1 (State.set_steamTable tbl1 s1))
      (State.set_region r2 (State.set_steamTable tbl2 s2)) =
    makeDeltaLabel self s1 s2.
Proof.
  intros (Hp1 & Ht1 & Hu1 & Hh1 & Hs1 & Hv1 & Hx1)
         (Hp2 & Ht2 & Hu2 & Hh2 & Hs2 & Hv2 & Hx2).
  split.
  - unfold makeDeltaLabel, rbind, minus.
    rewrite Hp1, Ht1, Hu1, Hh1, Hs1, Hv1, Hx1, Hp2, Ht2, Hu2, Hh2, Hs2, Hv2, Hx2.
    reflexivity.
  - intros tbl1 tbl2 r1 r2. destruct s1, s2. reflexivity.
Qed.

(** ** The program run on the sample table *)

(** Pressure 1 bar and temperature 100 C, above the saturation temperature
    of the sample table: super-heated vapor of quality 1. *)
Lemma setState_pt_classifies_witness :
  State.region (snd (setState sampleTable "p" "t" 1.0 100.0 true (init sampleTable)))
    = "super-heated vapor" /\
  State.x (snd (setState sampleTable "p" "t" 1.0 100.0 true (init sampleTable)))
    = Some 1.0 /\
  fst (setState sampleTable "p" "t" 1.0 100.0 true (init sampleTable)) = Ok tt.
Proof.
  destruct (setState_pt_classifies sampleTable "p" "t" 1.0 100.0 true
              1.0 100.0 99.606 (init sampleTable)) as (_ & H & _).
  - left. repeat split; reflexivity.
  - intros st. reflexivity.
  - intros st. reflexivity.
  - reflexivity.
  - destruct H as (Hr & Hx & Hok); [reflexivity | reflexivity |].
    assert (Hfst : fst (setState sampleTable "p" "t" 1.0 100.0 true (init sampleTable)) = Ok tt).
    { apply (Hok (4.0 * 100.0) (4.0 * 100.0 + 1.0) (0.0625 * 100.0) (0.001 * 100.0)).
      repeat split; reflexivity. }
    split; [exact Hr|]. split; [exact (Hx Hfst) | exact Hfst].
Defined.

(** Pressure 1 bar with the quality 1.5: accepted, clamped to 1, two-phase
    at the saturation temperature. *)
Lemma setState_px_clamps_witness :
  State.region (snd (setState sampleTable "p" "x" 1.0 1.5 true (init sampleTable)))
    = "two-phase" /\
  State.t (snd (setState sampleTable "p" "x" 1.0 1.5 true (init sampleTable)))
    = Some 99.606 /\
  State.x (snd (setState sampleTable "p" "x" 1.0 1.5 true (init sampleTable)))
    = Some 1.0 /\
  fst (setState sampleTable "p" "x" 1.0 1.5 true (init sampleTable)) = Ok tt.
Proof.
  destruct (setState_px_clamps sampleTable "p" "x" 1.0 1.5 true
              1.0 1.5 99.606 (init sampleTable))
    as (Hr & Ht & Hx & _ & _ & _ & Hok & _).
  - left. repeat split; reflexivity.
  - intros st. reflexivity.
  - reflexivity.
  - split; [exact Hr|]. split; [exact Ht|]. split; [exact Hx|].
    apply Hok with (uf := 417.33) (ug := 2505.5) (hf := 417.44) (hg := 2674.9)
                   (sf := 1.3026) (sg := 7.3588) (vf := 0.0010431) (vg := 1.6939).
    + intros st. reflexivity.
    + repeat split; reflexivity.
Defined.

(** C2, at the quality NaN: it is accepted, and it is not brought into
    [0, 1], since both comparisons of the clamping are false on it. *)
Lemma setState_px_nan_quality :
  fst (setState sampleTable "p" "x" 1.0 nan true (init sampleTable)) = Ok tt /\
  State.region (snd (setState sampleTable "p" "x" 1.0 nan true (init sampleTable)))
    = "two-phase" /\
  State.x (snd (setState sampleTable "p" "x" 1.0 nan true (init sampleTable)))
    = Some nan /\
  (0.0 <=? nan) = false /\ (nan <=? 1.0) = false.
Proof. repeat split; reflexivity. Qed.

(** A thousand psi, about 69 bar, is refused as above the limit. *)
Lemma checkPressure_unscaled_witness :
  fst (setState sampleTable "p" "t" 1000.0 500.0 false (init sampleTable)) =
    Raise (ValueError (PressureAboveLimit 1000.0)).
Proof.
  destruct (checkPressure_unscaled sampleTable "p" "t" 1000.0 500.0 false
              1000.0 500.0 (init sampleTable)) as (_ & H & _).
  - left. repeat split; reflexivity.
  - apply H; reflexivity.
Defined.

(** A call that fails on its pressure has already stored the two inputs:
    on an object that held a resolved state, the pressure and temperature
    are the new ones and the five other attributes the old ones. *)
Lemma setState_failure_keeps_inputs :
  let st := snd (setState sampleTable "p" "t" 1.0 100.0 true (init sampleTable)) in
  let r := setState sampleTable "p" "t" (-1.0) 50.0 true st in
  fst r = Raise (ValueError (InvalidPressure (-1.0))) /\
  State.p st = Some 1.0 /\ State.t st = Some 100.0 /\
  State.p (snd r) = Some (-1.0) /\ State.t (snd r) = Some 50.0 /\
  State.u (snd r) = State.u st /\ State.x (snd r) = State.x st /\
  snd r <> st /\
  State.u (snd (setState sampleTable "p" "t" (-1.0) 50.0 true (init sampleTable)))
    = None.
Proof.
  cbv zeta. repeat (split; [vm_compute; reflexivity|]).
  split; [|vm_compute; reflexivity].
  intros H. apply (f_equal State.p) in H. vm_compute in H. discriminate H.
Qed.

(** Temperature with specific enthalpy is not implemented. *)
Lemma unsupported_combination_rejected_witness :
  fst (setState sampleTable "t" "h" 100.0 2800.0 true (init sampleTable)) =
    Raise (ValueError (ComboNotImplemented "t" "h")).
Proof.
  destruct (unsupported_combination_rejected sampleTable
              Temperature SpecificEnthalpy 100.0 2800.0 true (init sampleTable))
    as (H & _).
  - discriminate.
  - reflexivity.
  - change "t"%string with (code Temperature).
    change "h"%string with (code SpecificEnthalpy).
    rewrite H. reflexivity.
Defined.


(** Pressure 1 bar with quality 0.25 on the sample table. *)
Lemma two_phase_interpolation_witness :
  State.u (snd (setState sampleTable "p" "x" 1.0 0.25 true (init sampleTable)))
    = Some (417.33 + 0.25 * (2505.5 - 417.33)) /\
  State.v (snd (setState sampleTable "p" "x" 1.0 0.25 true (init sampleTable)))
    = Some (0.0010431 + 0.25 * (1.6939 - 0.0010431)).
Proof.
  destruct (two_phase_interpolation sampleTable "p" "x" 1.0 0.25 true
              (init sampleTable)
              (snd (setState sampleTable "p" "x" 1.0 0.25 true (init sampleTable))))
    as (pv & w & xv & uf & ug & hf & hg & sf & sg & vf & vg
        & _ & _ & Hp & Hx & (A & B & _ & _ & _ & _ & C & D)
        & Hu & _ & _ & Hv).
  - vm_compute. reflexivity.
  - vm_compute. reflexivity.
  - vm_compute in Hp. injection Hp as <-.
    vm_compute in Hx. injection Hx as <-.
    vm_compute in A. injection A as <-.
    vm_compute in B. injection B as <-.
    vm_compute in C. injection C as <-.
    vm_compute in D. injection D as <-.
    split; [exact Hu | exact Hv].
Defined.

(** The two default states of the window: 1 bar at 100 C and at 200 C. *)
Lemma makeDeltaLabel_differences_witness :
  makeDeltaLabel sampleWindow
    (snd (setState sampleTable "p" "t" 1.0 100.0 true (init sampleTable)))
    (snd (setState sampleTable "p" "t" 1.0 200.0 true (init sampleTable))) =
  Ok [ ValueLine "ΔPressure" (1.0 - 1.0) 3 "bar";
       ValueLine "ΔTemperature" (200.0 - 100.0) 3 "C";
       ValueLine "ΔInternal Energy" (4.0 * 200.0 - 4.0 * 100.0) 3 "kJ/kg";
       ValueLine "ΔEnthalpy" (4.0 * 200.0 + 1.0 - (4.0 * 100.0 + 1.0)) 3 "kJ/kg";
       ValueLine "ΔEntropy" (0.0625 * 200.0 - 0.0625 * 100.0) 3 "kJ/kg*C";
       ValueLine "ΔSpecific Volume" (0.001 * 200.0 - 0.001 * 100.0) 5 "m^3/kg";
       BareLine "ΔQuality" (1.0 - 1.0) 3 ].
Proof.
  apply (makeDeltaLabel_differences sampleWindow
           (snd (setState sampleTable "p" "t" 1.0 100.0 true (init sampleTable)))
           (snd (setState sampleTable "p" "t" 1.0 200.0 true (init sampleTable)))
           1.0 100.0 (4.0 * 100.0) (4.0 * 100.0 + 1.0) (0.0625 * 100.0)
           (0.001 * 100.0) 1.0
           1.0 200.0 (4.0 * 200.0) (4.0 * 200.0 + 1.0) (0.0625 * 200.0)
           (0.001 * 200.0) 1.0).
  - repeat split; reflexivity.
  - repeat split; reflexivity.
Defined.

(** The empty code, which [shortProp] gives for a text without parentheses,
    between SI and English units. *)
Lemma convertValue_unrecognised_witness :
  shortProp "Pressure" = "" /\
  convertValue sampleUC 5.0 (shortProp "Pressure") true false = 5.0.
Proof.
  split; [reflexivity|].
  apply (convertValue_unrecognised sampleUC 5.0 (shortProp "Pressure") true false).
  cbn. intros H. repeat (destruct H as [H|H]; [discriminate H|]). exact H.
Defined.



(** ** Further facts about the bound checks *)

Lemma is_nan_Prim2SF (a : float) : is_nan a = true -> Prim2SF a = S754_nan.
Proof.
  unfold is_nan. rewrite FloatAxioms.eqb_spec. unfold SFeqb. intros H.
  destruct (Prim2SF a) as [sa|sa| |sa ma ea] eqn:E; try reflexivity;
    rewrite SFcompare_refl in H by discriminate; discriminate.
Qed.

(** Every comparison with NaN is false. *)
Lemma nan_comparisons (a b : float) :
  is_nan a = true ->
  (a <? b) = false /\ (b <? a) = false /\ (a <=? b) = false /\ (b <=? a) = false.
Proof.
  intros H. apply is_nan_Prim2SF in H.
  rewrite !FloatAxioms.ltb_spec, !FloatAxioms.leb_spec. unfold SFltb, SFleb.
  rewrite H. destruct (Prim2SF b); repeat split; reflexivity.
Qed.

Section ResolverExtras.

Variable XSteam_new : UnitSystem -> XSteam.

(** X1.  For a pressure-temperature input whose pressure passes its check,
    the temperature is compared with 0 and 600 as it is given, in either
    unit system, before the steam table is asked anything: below 0 and
    above 600 raise the two [ValueError]s that carry the temperature; 0 and
    600 themselves pass. *)
Theorem setState_temperature_bounds
    (prop1 prop2 : string) (val1 val2 : float) (SI : bool)
    (pv tv : float) (st : thermoState) :
  pt_inputs prop1 prop2 val1 val2 pv tv ->
  passes (checkPressure pv) ->
  let r := fst (setState XSteam_new prop1 prop2 val1 val2 SI st) in
  ((tv <? 0.0) = true -> r = Raise (ValueError (TemperatureBelow0 tv))) /\
  ((tv <? 0.0) = false -> (600.0 <? tv) = true ->
     r = Raise (ValueError (TemperatureAbove600 tv))) /\
  passes (checkTemperature 0.0) /\ passes (checkTemperature 600.0).
Proof.
  intros Hin Hp r. subst r.
  rewrite (setState_pt XSteam_new _ _ _ _ SI pv tv st Hin).
  rewrite (bind_passes _ _ _ Hp).
  unfold bind at 1. unfold checkTemperature, raise, ret.
  split; [|split; [|split]].
  - intros ->. reflexivity.
  - intros -> ->. reflexivity.
  - intros s. reflexivity.
  - intros s. reflexivity.
Qed.

(** X2.  The pressure-quality branch checks the pressure in the same way,
    before it clamps the quality: on either failure the object holds the
    quality as it was given. *)
Theorem setState_px_pressure_bounds
    (prop1 prop2 : string) (val1 val2 : float) (SI : bool)
    (pv xv : float) (st : thermoState) :
  px_inputs prop1 prop2 val1 val2 pv xv ->
  let r := setState XSteam_new prop1 prop2 val1 val2 SI st in
  ((pv <=? 0.0) = true ->
     fst r = Raise (ValueError (InvalidPressure pv)) /\
     State.x (snd r) = Some xv) /\
  ((pv <=? 0.0) = false -> (300.0 <? pv) = true ->
     fst r = Raise (ValueError (PressureAboveLimit pv)) /\
     State.x (snd r) = Some xv).
Proof.
  intros Hin r. subst r.
  rewrite (setState_px XSteam_new _ _ _ _ SI pv xv st Hin).
  unfold bind at 1. unfold checkPressure, raise, ret.
  split.
  - intros ->. split; reflexivity.
  - intros -> ->. split; reflexivity.
Qed.

(** X3.  Neither check rejects NaN: every comparison with it is false, so
    a pressure or a temperature that is not a number goes on to the steam
    table. *)
Theorem bound_checks_accept_nan (v : float) :
  is_nan v = true ->
  passes (checkPressure v) /\ passes (checkTemperature v).
Proof.
  intros H.
  destruct (nan_comparisons v 0.0 H) as (A & _ & B & _).
  destruct (nan_comparisons v 300.0 H) as (_ & C & _ & _).
  destruct (nan_comparisons v 600.0 H) as (_ & D & _ & _).
  split.
  - apply checkPressure_passes. auto.
  - apply checkTemperature_passes. auto.
Qed.

End ResolverExtras.

(** ** Normalised property names *)

Lemma lower_ascii_idem (c : ascii) :
  Py.lower_ascii (Py.lower_ascii c) = Py.lower_ascii c.
Proof. destruct c as [[] [] [] [] [] [] [] []]; reflexivity. Qed.

Lemma is_space_lower_ascii (c : ascii) :
  Py.is_space (Py.lower_ascii c) = Py.is_space c.
Proof. destruct c as [[] [] [] [] [] [] [] []]; reflexivity. Qed.

Lemma lower_idem (s : string) : Py.lower (Py.lower s) = Py.lower s.
Proof.
  induction s as [|c s IH]; cbn; [reflexivity|].
  rewrite lower_ascii_idem, IH. reflexivity.
Qed.

Lemma lstrip_lower (s : string) : Py.lstrip (Py.lower s) = Py.lower (Py.lstrip s).
Proof.
  induction s as [|c s IH]; cbn; [reflexivity|].
  rewrite is_space_lower_ascii. destruct (Py.is_space c); [exact IH|reflexivity].
Qed.

Lemma rstrip_lower (s : string) : Py.rstrip (Py.lower s) = Py.lower (Py.rstrip s).
Proof.
  induction s as [|c s IH]; cbn; [reflexivity|].
  rewrite IH, is_space_lower_ascii.
  destruct (Py.rstrip s); cbn; [destruct (Py.is_space c)|]; reflexivity.
Qed.

Lemma rstrip_idem (s : string) : Py.rstrip (Py.rstrip s) = Py.rstrip s.
Proof.
  induction s as [|c s IH]; cbn; [reflexivity|].
  destruct (Py.rstrip s) as [|d r] eqn:E.
  - destruct (Py.is_space c) eqn:Ec; cbn; [reflexivity|]. rewrite Ec. reflexivity.
  - cbn in IH |- *. rewrite IH. reflexivity.
Qed.

Lemma no_lead_lstrip (s : string) : no_lead (Py.lstrip s) = true.
Proof.
  induction s as [|c s IH]; cbn; [reflexivity|].
  destruct (Py.is_space c) eqn:E; [exact IH|]. cbn. rewrite E. reflexivity.
Qed.

Lemma lstrip_no_lead (s : string) : no_lead s = true -> Py.lstrip s = s.
Proof.
  destruct s as [|c s]; cbn; [reflexivity|].
  destruct (Py.is_space c); [discriminate|reflexivity].
Qed.

Lemma no_lead_rstrip (s : string) : no_lead s = true -> no_lead (Py.rstrip s) = true.
Proof.
  destruct s as [|c s]; cbn; [reflexivity|].
  destruct (Py.is_space c) eqn:E; [discriminate|]. intros _.
  destruct (Py.rstrip s); cbn; rewrite E; reflexivity.
Qed.

Lemma strip_idem (s : string) : Py.strip (Py.strip s) = Py.strip s.
Proof.
  unfold Py.strip.
  rewrite (lstrip_no_lead (Py.rstrip (Py.lstrip s)))
    by (apply no_lead_rstrip, no_lead_lstrip).
  apply rstrip_idem.
Qed.

Lemma strip_lower (s : string) : Py.strip (Py.lower s) = Py.lower (Py.strip s).
Proof. unfold Py.strip. rewrite lstrip_lower, rstrip_lower. reflexivity. Qed.

Lemma normalize_idem (s : string) : normalize (normalize s) = normalize s.
Proof.
  unfold normalize. rewrite (strip_lower s), lower_idem, <- strip_lower.
  apply strip_idem.
Qed.

Section NamesExtras.

Variable XSteam_new : UnitSystem -> XSteam.

(** X4.  Normalising a property name twice is normalising it once, and
    [setState] behaves on two names as on their normalised forms: upper
    case and surrounding white space in a name make no difference, and the
    "not implemented" message shows the names normalised. *)
Theorem setState_normalized_names
    (prop1 prop2 : string) (val1 val2 : float) (SI : bool) (st : thermoState) :
  normalize (normalize prop1) = normalize prop1 /\
  setState XSteam_new prop1 prop2 val1 val2 SI st =
  setState XSteam_new (normalize prop1) (normalize prop2) val1 val2 SI st /\
  setState XSteam_new " P" "T " val1 val2 SI st =
  setState XSteam_new "p" "t" val1 val2 SI st.
Proof.
  split; [apply normalize_idem|]. split.
  - unfold setState. rewrite !normalize_idem. reflexivity.
  - reflexivity.
Qed.

(** X5.  For pressure with temperature and for pressure with quality, the
    order in which the two properties are given makes no difference. *)
Theorem setState_order_independent
    (prop1 prop2 : string) (val1 val2 : float) (SI : bool)
    (pv w : float) (st : thermoState) :
  pt_inputs prop1 prop2 val1 val2 pv w \/ px_inputs prop1 prop2 val1 val2 pv w ->
  setState XSteam_new prop1 prop2 val1 val2 SI st =
  setState XSteam_new prop2 prop1 val2 val1 SI st.
Proof.
  intros [H|H].
  - rewrite (setState_pt XSteam_new _ _ _ _ SI pv w st H).
    symmetry. apply setState_pt.
    destruct H as [(A & B & C & D)|(A & B & C & D)]; [right|left]; auto.
  - rewrite (setState_px XSteam_new _ _ _ _ SI pv w st H).
    symmetry. apply setState_px.
    destruct H as [(A & B & C & D)|(A & B & C & D)]; [right|left]; auto.
Qed.

End NamesExtras.

(** ** What a successful call leaves in the object *)

Section SuccessExtras.

Variable XSteam_new : UnitSystem -> XSteam.

(** X6.  Whenever a call returns normally with a region other than
    "two-phase", the region is "super-heated vapor" with quality 1.0 or
    "sub-cooled liquid" with quality 0.0, and each of u, h, s, v is what the
    steam table returns at the pressure and temperature of the object. *)
Theorem single_phase_properties
    (prop1 prop2 : string) (val1 val2 : float) (SI : bool)
    (st st' : thermoState) :
  setState XSteam_new prop1 prop2 val1 val2 SI st = (Ok tt, st') ->
  State.region st' <> "two-phase" ->
  exists pv tv uv hv sv vv,
    State.p st' = Some pv /\ State.t st' = Some tv /\
    single_phase_values (State.steamTable st') pv tv uv hv sv vv /\
    State.u st' = Some uv /\ State.h st' = Some hv /\
    State.s st' = Some sv /\ State.v st' = Some vv /\
    ((State.region st' = "super-heated vapor" /\ State.x st' = Some 1.0) \/
     (State.region st' = "sub-cooled liquid" /\ State.x st' = Some 0.0)).
Proof.
  intros Hok Hreg.
  destruct (setState_ok_inv XSteam_new _ _ _ _ _ _ _ Hok)
    as [(pv & tv & tsat & Hin & Hp & Ht & Hs & Hc)
       |(pv & xv & tsat & Hin & Hp & Hs & Ht & Hc)].
  - cbv zeta in Hc.
    match type of Hc with
    | computeProperties ?s = _ =>
        destruct (computeProperties_frame s) as (_ & F & _);
        rewrite Hc in F; cbn [snd] in F;
        assert (Hr : State.region s <> "two-phase") by (rewrite <- F; exact Hreg);
        destruct (computeProperties_single_inv s st' Hr Hc)
          as (pv' & tv' & uv & hv & sv & vv & Hp' & Ht' & Hv & E)
    end.
    exists pv', tv', uv, hv, sv, vv.
    destruct (abs (tv - tsat) <? 0.0001); [exfalso; apply Hr; reflexivity|].
    destruct (tsat <? tv); subst st'; cbn in *;
      (repeat split; try assumption; try apply Hv; auto).
  - exfalso.
    match type of Hc with
    | computeProperties ?s = _ =>
        destruct (computeProperties_frame s) as (_ & F & _);
        rewrite Hc in F; cbn in F
    end.
    exact (Hreg F).
Qed.

(** X7.  A call that returns normally leaves an object whose steam table
    is that of the unit system asked for, whose region is one of
    "two-phase", "super-heated vapor" and "sub-cooled liquid", and whose
    pressure and temperature pass the two bound checks. *)
Theorem setState_success_invariant
    (prop1 prop2 : string) (val1 val2 : float) (SI : bool)
    (st st' : thermoState) :
  setState XSteam_new prop1 prop2 val1 val2 SI st = (Ok tt, st') ->
  State.steamTable st' = XSteam_new (units SI) /\
  In (State.region st')
     ["two-phase"; "super-heated vapor"; "sub-cooled liquid"] /\
  exists pv tv,
    State.p st' = Some pv /\ State.t st' = Some tv /\
    (pv <=? 0.0) = false /\ (300.0 <? pv) = false /\
    (tv <? 0.0) = false /\ (600.0 <? tv) = false.
Proof.
  intros Hok.
  destruct (setState_ok_inv XSteam_new _ _ _ _ _ _ _ Hok)
    as [(pv & tv & tsat & Hin & Hp & Ht & Hs & Hc)
       |(pv & xv & tsat & Hin & Hp & Hs & Ht & Hc)];
    apply checkPressure_passes in Hp; apply checkTemperature_passes in Ht;
    destruct Hp as [Hp1 Hp2]; destruct Ht as [Ht1 Ht2]; cbv zeta in Hc;
    match type of Hc with
    | computeProperties ?s = _ =>
        destruct (computeProperties_frame s) as (F1 & F2 & F3 & F4);
        rewrite Hc in F1, F2, F3, F4; cbn [snd] in F1, F2, F3, F4
    end.
  - rewrite F1, F2, F3, F4.
    destruct (abs (tv - tsat) <? 0.0001); [|destruct (tsat <? tv)]; cbn;
      (split; [reflexivity|]); (split; [tauto|]);
      exists pv, tv; repeat split; assumption.
  - rewrite F1, F2, F3, F4. cbn.
    split; [reflexivity|]. split; [tauto|].
    exists pv, tsat. repeat split; assumption.
Qed.

End SuccessExtras.

(** ** The window: the calculation *)

Arguments setState : simpl never.
Arguments shortProp : simpl never.
Arguments makeLabel : simpl never.
Arguments makeDeltaLabel : simpl never.

(** The labels of the window have no part in [makeLabel] and
    [makeDeltaLabel]. *)
Lemma makeLabel_set_lblWarning (a : label) (w : main_window) (st : thermoState) :
  makeLabel (Window.set_lblWarning a w) st = makeLabel w st.
Proof. reflexivity. Qed.

Lemma makeLabel_set_lblResults (a b c : label) (w : main_window)
    (st : thermoState) :
  makeLabel (Window.set_lblResults a b c w) st = makeLabel w st.
Proof. reflexivity. Qed.

Lemma makeDeltaLabel_set_lblWarning (a : label) (w : main_window)
    (s1 s2 : thermoState) :
  makeDeltaLabel (Window.set_lblWarning a w) s1 s2 = makeDeltaLabel w s1 s2.
Proof. reflexivity. Qed.

Lemma makeDeltaLabel_set_lblResults (a b c : label) (w : main_window)
    (s1 s2 : thermoState) :
  makeDeltaLabel (Window.set_lblResults a b c w) s1 s2 = makeDeltaLabel w s1 s2.
Proof. reflexivity. Qed.

Lemma set_lblWarning_twice (a b : label) (w : main_window) :
  Window.set_lblWarning a (Window.set_lblWarning b w) = Window.set_lblWarning a w.
Proof. reflexivity. Qed.

Lemma set_lblResults_twice (a b c a' b' c' : label) (w : main_window) :
  Window.set_lblResults a b c (Window.set_lblResults a' b' c' w) =
  Window.set_lblResults a b c w.
Proof. reflexivity. Qed.

Lemma set_lblWarning_set_lblResults (x a b c : label) (w : main_window) :
  Window.set_lblWarning x (Window.set_lblResults a b c w) =
  Window.set_lblResults a b c (Window.set_lblWarning x w).
Proof. reflexivity. Qed.

Section CalculationExtras.

Variable XSteam_new : UnitSystem -> XSteam.

(** The three ways a calculation ends: an exception of [float] leaves
    the slot with the warning cleared; or it returns with a warning and
    nothing else changed; or it returns with the warning cleared and the
    three labels set. *)
Lemma calculateProperties_cases (self : main_window) :
  (exists e,
     calculateProperties XSteam_new self =
       (Raise e, Window.set_lblWarning [Text ""] self)) \/
  (exists w, w <> [Text ""] /\
     calculateProperties XSteam_new self =
       (Ok tt, Window.set_lblWarning w self)) \/
  (exists l1 l2 ld,
     calculateProperties XSteam_new self =
       (Ok tt,
        Window.set_lblResults l1 l2 ld
          (Window.set_lblWarning [Text ""] self))).
Proof.
  unfold calculateProperties, handler. cbv zeta.
  destruct (float_text _) as [v11|e]; [|left; exists e; reflexivity].
  destruct (float_text _) as [v21|e]; [|left; exists e; reflexivity].
  destruct (float_text _) as [v12|e]; [|left; exists e; reflexivity].
  destruct (float_text _) as [v22|e]; [|left; exists e; reflexivity].
  right.
  destruct (_ =? _)%string; [left; eexists; split; [|reflexivity]; discriminate|].
  destruct (_ =? _)%string; [left; eexists; split; [|reflexivity]; discriminate|].
  destruct (setState XSteam_new _ _ _ _ _ _) as [[[]|e1] s1];
    [|left; destruct e1; eexists; (split; [|reflexivity]); discriminate].
  destruct (setState XSteam_new _ _ _ _ _ _) as [[[]|e2] s2];
    [|left; destruct e2; eexists; (split; [|reflexivity]); discriminate].
  destruct (makeLabel _ s1) as [l1|e];
    [|left; destruct e; eexists; (split; [|reflexivity]); discriminate].
  destruct (makeLabel _ s2) as [l2|e];
    [|left; destruct e; eexists; (split; [|reflexivity]); discriminate].
  destruct (makeDeltaLabel _ s1 s2) as [ld|e];
    [|left; destruct e; eexists; (split; [|reflexivity]); discriminate].
  right. exists l1, l2, ld. reflexivity.
Qed.

(** The warning that a window shows has no part in the calculation. *)
Lemma calculateProperties_set_lblWarning (a : label) (w : main_window) :
  calculateProperties XSteam_new (Window.set_lblWarning a w) =
  calculateProperties XSteam_new w.
Proof.
  unfold calculateProperties, handler. cbv zeta.
  rewrite !set_lblWarning_twice. reflexivity.
Qed.

(** The result labels that a window shows are overwritten when the
    calculation succeeds. *)
Lemma calculateProperties_set_lblResults (a b c : label) (w : main_window)
    (l1 l2 ld : label) :
  calculateProperties XSteam_new w =
    (Ok tt,
     Window.set_lblResults l1 l2 ld (Window.set_lblWarning [Text ""] w)) ->
  calculateProperties XSteam_new (Window.set_lblResults a b c w) =
    (Ok tt,
     Window.set_lblResults l1 l2 ld (Window.set_lblWarning [Text ""] w)).
Proof.
  unfold calculateProperties, handler. cbv zeta.
  rewrite !set_lblWarning_set_lblResults.
  set (w0 := Window.set_lblWarning [Text ""] w).
  change (Window.cmbProp1S1 (Window.set_lblResults a b c w0))
    with (Window.cmbProp1S1 w0).
  change (Window.cmbProp2S1 (Window.set_lblResults a b c w0))
    with (Window.cmbProp2S1 w0).
  change (Window.cmbProp1S2 (Window.set_lblResults a b c w0))
    with (Window.cmbProp1S2 w0).
  change (Window.cmbProp2S2 (Window.set_lblResults a b c w0))
    with (Window.cmbProp2S2 w0).
  change (Window.lePropVal1S1 (Window.set_lblResults a b c w0))
    with (Window.lePropVal1S1 w0).
  change (Window.lePropVal2S1 (Window.set_lblResults a b c w0))
    with (Window.lePropVal2S1 w0).
  change (Window.lePropVal1S2 (Window.set_lblResults a b c w0))
    with (Window.lePropVal1S2 w0).
  change (Window.lePropVal2S2 (Window.set_lblResults a b c w0))
    with (Window.lePropVal2S2 w0).
  change (Window.currentUnits (Window.set_lblResults a b c w0))
    with (Window.currentUnits w0).
  destruct (float_text (Window.lePropVal1S1 w0)); [|discriminate].
  destruct (float_text (Window.lePropVal2S1 w0)); [|discriminate].
  destruct (float_text (Window.lePropVal1S2 w0)); [|discriminate].
  destruct (float_text (Window.lePropVal2S2 w0)); [|discriminate].
  assert (Hw : forall x, x <> [Text ""] ->
            (Ok tt, Window.set_lblWarning x w0) <>
            (@Ok unit tt, Window.set_lblResults l1 l2 ld w0)).
  { intros x Hx E. apply (f_equal (fun r => Window.lblWarning (snd r))) in E.
    cbn in E. congruence. }
  assert (Hfail : forall e : exn,
            (Ok tt,
             match e with
             | ValueError _ => Window.set_lblWarning [ErrorLine e] w0
             | _ => Window.set_lblWarning [UnexpectedLine e] w0
             end) <>
            (@Ok unit tt, Window.set_lblResults l1 l2 ld w0)).
  { intros e. destruct e; apply Hw; discriminate. }
  destruct (_ =? _)%string; [intros E; destruct (Hw _ ltac:(discriminate) E)|].
  destruct (_ =? _)%string; [intros E; destruct (Hw _ ltac:(discriminate) E)|].
  destruct (setState XSteam_new _ _ _ _ _ _) as [[[]|e1] s1];
    [|intros E; destruct (Hfail _ E)].
  destruct (setState XSteam_new _ _ _ _ _ _) as [[[]|e2] s2];
    [|intros E; destruct (Hfail _ E)].
  rewrite !makeLabel_set_lblResults, !makeDeltaLabel_set_lblResults.
  destruct (makeLabel _ s1) as [m1|e]; [|intros E; destruct (Hfail _ E)].
  destruct (makeLabel _ s2) as [m2|e]; [|intros E; destruct (Hfail _ E)].
  destruct (makeDeltaLabel _ s1 s2) as [md|e]; [|intros E; destruct (Hfail _ E)].
  intros E. rewrite set_lblResults_twice. exact E.
Qed.

(** X10.  Calculating twice is calculating once: [calculateProperties]
    changes neither the combo boxes, the line edits nor the units, and how
    it ends and what it writes to the four labels depend on those only. *)
Theorem calculateProperties_idempotent (self : main_window) :
  calculateProperties XSteam_new
    (snd (calculateProperties XSteam_new self)) =
  calculateProperties XSteam_new self.
Proof.
  destruct (calculateProperties_cases self)
    as [(e & E)|[(w & Hw & E)|(l1 & l2 & ld & E)]].
  - rewrite E at 1. cbn [snd].
    apply calculateProperties_set_lblWarning.
  - rewrite E at 1. cbn [snd].
    apply calculateProperties_set_lblWarning.
  - rewrite E at 1. cbn [snd].
    rewrite (calculateProperties_set_lblResults l1 l2 ld
               (Window.set_lblWarning [Text ""] self) l1 l2 ld).
    + rewrite set_lblWarning_twice. symmetry. exact E.
    + rewrite calculateProperties_set_lblWarning, set_lblWarning_twice.
      exact E.
Qed.

End CalculationExtras.

(** ** The short name of a combo-box entry *)







(** ** More on the conversion of values *)

Section ConversionExtras.

Variable UC : UnitConversion.

(** X12.  [convertValue] gives the value back between equal unit
    systems, whatever the property, and for the quality between any two;
    internal energy and enthalpy are converted alike; and only the first
    flag decides the direction once the two differ. *)
Theorem convertValue_identities
    (val : float) (propType : string) (oldIsSI newIsSI : bool) :
  convertValue UC val propType oldIsSI oldIsSI = val /\
  convertValue UC val "x" oldIsSI newIsSI = val /\
  convertValue UC val "u" oldIsSI newIsSI =
    convertValue UC val "h" oldIsSI newIsSI /\
  convertValue UC val " P" oldIsSI newIsSI = val /\
  (oldIsSI <> newIsSI ->
   convertValue UC val "p" oldIsSI newIsSI =
     if oldIsSI then val * bar_to_psi UC else val * psi_to_bar UC).
Proof.
  unfold convertValue. rewrite Bool.eqb_reflx.
  repeat split; try (destruct (Bool.eqb _ _); reflexivity).
  intros H. destruct oldIsSI, newIsSI; try reflexivity; congruence.
Qed.

End ConversionExtras.

(** ** setUnits *)

(** Taking a form apart into its widgets. *)
Ltac open_form f :=
  let w := fresh "w" in
  destruct f as [w ? ? ? ? ?]; destruct w; cbn in *.

(** Both sides run to the same form; the names of the properties and the
    conversions are left as they stand. *)
Ltac run := cbv -[shortProp convertValue String.eqb negb]; reflexivity.

(** The same, for a side that is a closed value. *)
Ltac run_closed := vm_compute; reflexivity.

Section UnitsExtras.

Variable XSteam_new : UnitSystem -> XSteam.
Variable UC : UnitConversion.
Variable format3 : float -> float.

(** With numbers in the four line edits [setUnits] returns; what it does
    to one property line. *)
Lemma setUnits_line (f : form) (val1S1 val2S1 val1S2 val2S2 : float) :
  holds_numbers (Form.window f) val1S1 val2S1 val1S2 val2S2 ->
  let SI := Form.rdoSI f in
  fst (setUnits UC format3 f) = Ok tt /\
  forall l v, lineValue l f = Number v ->
    let g := snd (setUnits UC format3 f) in
    let propType := shortProp (lineCombo l f) in
    lineCombo l g = lineCombo l f /\
    lineValue l g =
      Number (format3 (if toggled f
                       then convertValue UC v propType (negb SI) SI
                       else v)) /\
    lineUnits l g =
      (if (propType =? "p")%string then Window.pUnits (Form.window g)
       else if (propType =? "t")%string then Window.tUnits (Form.window g)
       else if (propType =? "h")%string then Window.hUnits (Form.window g)
       else if (propType =? "u")%string then Window.uUnits (Form.window g)
       else if (propType =? "s")%string then Window.sUnits (Form.window g)
       else if (propType =? "v")%string then Window.vUnits (Form.window g)
       else "").
Proof.
  intros (N1 & N2 & N3 & N4). open_form f. subst.
  split; [run|].
  intros l v Hv.
  destruct l; cbn in Hv; injection Hv as <-;
    (split; [run|]); (split; run).
Qed.

(** X13.  With numbers in the four line edits, [setUnits] returns, and on
    the form that it leaves [setUnits] converts nothing: it writes the four
    numbers anew with three decimals and leaves everything else as it is.
    So a value is converted once per change of the radio buttons, and not
    again when a combo box is changed. *)
Theorem setUnits_converts_once
    (f : form) (val1S1 val2S1 val1S2 val2S2 : float) :
  holds_numbers (Form.window f) val1S1 val2S1 val1S2 val2S2 ->
  exists g,
    setUnits UC format3 f = (Ok tt, g) /\
    toggled g = false /\
    setUnits UC format3 g = (Ok tt, reformatted format3 g) /\
    ((forall v, format3 (format3 v) = format3 v) ->
     setUnits UC format3 g = (Ok tt, g)).
Proof.
  intros (N1 & N2 & N3 & N4).
  exists (snd (setUnits UC format3 f)).
  open_form f. subst.
  split; [run|].
  split; [destruct rdoSI; run_closed|].
  split.
  - cbv -[shortProp convertValue String.eqb negb].
    destruct rdoSI; rewrite !String.eqb_refl; cbv beta iota delta [negb];
      reflexivity.
  - intros Hidem. cbv -[shortProp convertValue String.eqb negb].
    destruct rdoSI; rewrite !String.eqb_refl; cbv beta iota delta [negb];
      rewrite !Hidem; reflexivity.
Qed.

(** X14.  With numbers in the four line edits: when the radio button does
    not agree with [currentUnits], every line is converted by the property
    of its own combo box, from the other unit system to the one of the
    radio button, and written with three decimals: a quality line keeps its
    number, a pressure line is multiplied by [bar_to_psi] or [psi_to_bar],
    a temperature line goes through [C_to_F] or [F_to_C].  When they agree,
    the number is only written anew. *)
Theorem setUnits_converts_lines
    (f : form) (val1S1 val2S1 val1S2 val2S2 : float)
    (l : propertyLine) (v : float) :
  holds_numbers (Form.window f) val1S1 val2S1 val1S2 val2S2 ->
  lineValue l f = Number v ->
  let SI := Form.rdoSI f in
  let g := snd (setUnits UC format3 f) in
  (toggled f = false -> lineValue l g = Number (format3 v)) /\
  (lineCombo l f = comboText Quality -> lineValue l g = Number (format3 v)) /\
  (toggled f = true -> lineCombo l f = comboText Pressure ->
     lineValue l g =
       Number (format3 (if SI then v * psi_to_bar UC else v * bar_to_psi UC))) /\
  (toggled f = true -> lineCombo l f = comboText Temperature ->
     lineValue l g =
       Number (format3 (if SI then F_to_C UC v else C_to_F UC v))) /\
  (toggled f = true -> forall k, lineCombo l f = comboText k ->
     lineValue l g =
       Number (format3 (convertValue UC v (code k) (negb SI) SI))).
Proof.
  intros HN Hv. cbv zeta.
  destruct (setUnits_line f _ _ _ _ HN) as (_ & H).
  destruct (H l v Hv) as (_ & -> & _).
  repeat split.
  - intros ->. reflexivity.
  - intros ->. destruct (toggled f); [|reflexivity].
    change (shortProp (comboText Quality)) with "x".
    rewrite convertValue_quality. reflexivity.
  - intros -> ->. change (shortProp (comboText Pressure)) with "p".
    destruct (Form.rdoSI f); reflexivity.
  - intros -> ->. change (shortProp (comboText Temperature)) with "t".
    destruct (Form.rdoSI f); reflexivity.
  - intros -> k ->. reflexivity.
Qed.

(** X15.  However [setUnits] ends, it leaves the window consistent with
    the radio button: [currentUnits] is "SI" exactly when [rdoSI] is
    checked, which is the flag that [calculateProperties] passes to
    [setState], and the six unit strings that [makeLabel] prints are those
    of that system.  With numbers in the four line edits, the label next to
    each of them is then the unit string of the property in its combo box,
    empty for the quality and for a text without a short name. *)
Theorem setUnits_units_consistent (f : form) :
  let SI := Form.rdoSI f in
  let g := snd (setUnits UC format3 f) in
  let w := Form.window g in
  Form.rdoSI g = SI /\
  (Window.currentUnits w =? "SI")%string = SI /\
  [Window.pUnits w; Window.tUnits w; Window.hUnits w; Window.uUnits w;
   Window.sUnits w; Window.vUnits w] =
    (if SI then ["bar"; "C"; "kJ/kg"; "kJ/kg"; "kJ/kg*C"; "m^3/kg"]
     else ["psi"; "F"; "btu/lb"; "btu/lb"; "btu/lb*F"; "ft^3/lb"]) /\
  (forall val1S1 val2S1 val1S2 val2S2,
     holds_numbers (Form.window f) val1S1 val2S1 val1S2 val2S2 ->
     (forall l k, lineCombo l f = comboText k ->
        lineUnits l g =
          match k with
          | Pressure => Window.pUnits w
          | Temperature => Window.tUnits w
          | Quality => ""
          | SpecificInternalEnergy => Window.uUnits w
          | SpecificEnthalpy => Window.hUnits w
          | SpecificVolume => Window.vUnits w
          | SpecificEntropy => Window.sUnits w
          end) /\
     (forall l, shortProp (lineCombo l f) = "" -> lineUnits l g = "")).
Proof.
  cbv zeta. split; [|split; [|split]].
  - open_form f.
    destruct rdoSI, lePropVal1S1, lePropVal2S1, lePropVal1S2, lePropVal2S2;
      run_closed.
  - open_form f.
    destruct rdoSI, lePropVal1S1, lePropVal2S1, lePropVal1S2, lePropVal2S2;
      run_closed.
  - open_form f.
    destruct rdoSI, lePropVal1S1, lePropVal2S1, lePropVal1S2, lePropVal2S2;
      run_closed.
  - intros v1 v2 v3 v4 HN.
    destruct (setUnits_line f _ _ _ _ HN) as (_ & H).
    assert (Hl : forall l, exists v, lineValue l f = Number v).
    { destruct HN as (N1 & N2 & N3 & N4).
      intros []; cbn; eauto. }
    split.
    + intros l k Hk. destruct (Hl l) as [v Hv].
      destruct (H l v Hv) as (_ & _ & ->). rewrite Hk.
      destruct k; reflexivity.
    + intros l Hs. destruct (Hl l) as [v Hv].
      destruct (H l v Hv) as (_ & _ & ->). rewrite Hs. reflexivity.
Qed.



(** X18.  When a line edit holds no number and those of the lines before
    it do, [setUnits] ends with the [ValueError] of [float]: the lines
    before it have been converted, that line and the lines after it keep
    their content and their unit labels, and [currentUnits] is already the
    new system, so that [setUnits] finds nothing changed from then on and
    never converts the lines that are left. *)
Theorem setUnits_stops_at_no_number
    (f : form) (l : propertyLine) (text : string) :
  lineValue l f = NoNumber text ->
  (forall l', (lineIndex l' < lineIndex l)%nat ->
              exists v, lineValue l' f = Number v) ->
  let SI := Form.rdoSI f in
  let g := snd (setUnits UC format3 f) in
  fst (setUnits UC format3 f) = Raise (ValueError (CouldNotConvert text)) /\
  toggled g = false /\
  (forall l', (lineIndex l <= lineIndex l')%nat ->
     lineValue l' g = lineValue l' f /\ lineUnits l' g = lineUnits l' f) /\
  (forall l' v, (lineIndex l' < lineIndex l)%nat ->
     lineValue l' f = Number v ->
     lineValue l' g =
       Number (format3 (if toggled f
                        then convertValue UC v (shortProp (lineCombo l' f))
                               (negb SI) SI
                        else v))).
Proof.
  intros Hl Hbefore. cbv zeta.
  destruct l.
  - open_form f. subst.
    split; [run|]. split; [destruct rdoSI; run_closed|].
    split.
    + intros [] _; split; run.
    + intros [] v H; cbn in H; lia.
  - destruct (Hbefore S1P1) as [v1 H1]; [cbn; lia|].
    open_form f. subst.
    split; [run|]. split; [destruct rdoSI; run_closed|].
    split.
    + intros [] H; cbn in H; try lia; split; run.
    + intros [] v H Hv; cbn in H; try lia; cbn in Hv.
      injection Hv as <-. run.
  - destruct (Hbefore S1P1) as [v1 H1]; [cbn; lia|].
    destruct (Hbefore S1P2) as [v2 H2]; [cbn; lia|].
    open_form f. subst.
    split; [run|]. split; [destruct rdoSI; run_closed|].
    split.
    + intros [] H; cbn in H; try lia; split; run.
    + intros [] v H Hv; cbn in H; try lia; cbn in Hv;
        injection Hv as <-; run.
  - destruct (Hbefore S1P1) as [v1 H1]; [cbn; lia|].
    destruct (Hbefore S1P2) as [v2 H2]; [cbn; lia|].
    destruct (Hbefore S2P1) as [v3 H3]; [cbn; lia|].
    open_form f. subst.
    split; [run|]. split; [destruct rdoSI; run_closed|].
    split.
    + intros [] H; cbn in H; try lia; split; run.
    + intros [] v H Hv; cbn in H; try lia; cbn in Hv;
        injection Hv as <-; run.
Qed.

End UnitsExtras.

Section NamesOfSuccess.

Variable XSteam_new : UnitSystem -> XSteam.

(** X17.  A call returns normally only for pressure with temperature or
    pressure with quality: whenever [setState] succeeds, the two normalised
    names are "p" and "t" or "p" and "x", in one order or the other. *)
Theorem setState_success_names
    (prop1 prop2 : string) (val1 val2 : float) (SI : bool)
    (st st' : thermoState) :
  setState XSteam_new prop1 prop2 val1 val2 SI st = (Ok tt, st') ->
  In (normalize prop1, normalize prop2)
     [("p", "t"); ("t", "p"); ("p", "x"); ("x", "p")].
Proof.
  intros Hok.
  destruct (setState_ok_inv _ _ _ _ _ _ _ _ Hok)
    as [(pv & tv & tsat & [(A & B & _)|(A & B & _)] & _)
       |(pv & xv & tsat & [(A & B & _)|(A & B & _)] & _)];
    rewrite A, B; cbn; tauto.
Qed.

End NamesOfSuccess.

(** ** The further facts on the sample table *)

(** 700 C at 1 bar is refused before the table is asked. *)
Lemma setState_temperature_bounds_witness :
  fst (setState sampleTable "p" "t" 1.0 700.0 true (init sampleTable)) =
    Raise (ValueError (TemperatureAbove600 700.0)).
Proof.
  destruct (setState_temperature_bounds sampleTable "p" "t" 1.0 700.0 true
              1.0 700.0 (init sampleTable)) as (_ & H & _).
  - left. repeat split; reflexivity.
  - intros st. reflexivity.
  - apply H; reflexivity.
Defined.

(** Quality 0.5 at pressure 0, the quality given first. *)
Lemma setState_px_pressure_bounds_witness :
  fst (setState sampleTable "x" "p" 0.5 0.0 true (init sampleTable)) =
    Raise (ValueError (InvalidPressure 0.0)) /\
  State.x (snd (setState sampleTable "x" "p" 0.5 0.0 true (init sampleTable))) =
    Some 0.5.
Proof.
  destruct (setState_px_pressure_bounds sampleTable "x" "p" 0.5 0.0 true
              0.0 0.5 (init sampleTable)) as (H & _).
  - right. repeat split; reflexivity.
  - apply H. reflexivity.
Defined.

Lemma bound_checks_accept_nan_witness :
  checkPressure nan (init sampleTable) = (Ok tt, init sampleTable) /\
  checkTemperature nan (init sampleTable) = (Ok tt, init sampleTable).
Proof.
  destruct (bound_checks_accept_nan nan) as (H1 & H2).
  - reflexivity.
  - split; [apply H1 | apply H2].
Defined.

(** Temperature first, pressure second. *)
Lemma setState_order_independent_witness :
  setState sampleTable "t" "p" 100.0 1.0 true (init sampleTable) =
  setState sampleTable "p" "t" 1.0 100.0 true (init sampleTable).
Proof.
  apply (setState_order_independent sampleTable "t" "p" 100.0 1.0 true
           1.0 100.0 (init sampleTable)).
  left. right. repeat split; reflexivity.
Defined.

(** 1 bar and 100 C on the sample table: vapor. *)
Lemma single_phase_properties_witness :
  exists pv tv uv hv sv vv,
    State.p (snd (setState sampleTable "p" "t" 1.0 100.0 true (init sampleTable)))
      = Some pv /\
    State.t (snd (setState sampleTable "p" "t" 1.0 100.0 true (init sampleTable)))
      = Some tv /\
    single_phase_values
      (State.steamTable
         (snd (setState sampleTable "p" "t" 1.0 100.0 true (init sampleTable))))
      pv tv uv hv sv vv /\
    State.u (snd (setState sampleTable "p" "t" 1.0 100.0 true (init sampleTable)))
      = Some uv /\
    State.h (snd (setState sampleTable "p" "t" 1.0 100.0 true (init sampleTable)))
      = Some hv /\
    State.s (snd (setState sampleTable "p" "t" 1.0 100.0 true (init sampleTable)))
      = Some sv /\
    State.v (snd (setState sampleTable "p" "t" 1.0 100.0 true (init sampleTable)))
      = Some vv /\
    ((State.region
        (snd (setState sampleTable "p" "t" 1.0 100.0 true (init sampleTable)))
        = "super-heated vapor" /\
      State.x (snd (setState sampleTable "p" "t" 1.0 100.0 true (init sampleTable)))
        = Some 1.0) \/
     (State.region
        (snd (setState sampleTable "p" "t" 1.0 100.0 true (init sampleTable)))
        = "sub-cooled liquid" /\
      State.x (snd (setState sampleTable "p" "t" 1.0 100.0 true (init sampleTable)))
        = Some 0.0)).
Proof.
  apply (single_phase_properties sampleTable "p" "t" 1.0 100.0 true
           (init sampleTable)).
  - vm_compute. reflexivity.
  - vm_compute. discriminate.
Defined.

Lemma setState_success_invariant_witness :
  State.steamTable
    (snd (setState sampleTable "p" "x" 1.0 0.25 false (init sampleTable)))
    = sampleTable UNIT_SYSTEM_FLS /\
  In (State.region
        (snd (setState sampleTable "p" "x" 1.0 0.25 false (init sampleTable))))
     ["two-phase"; "super-heated vapor"; "sub-cooled liquid"] /\
  exists pv tv,
    State.p (snd (setState sampleTable "p" "x" 1.0 0.25 false (init sampleTable)))
      = Some pv /\
    State.t (snd (setState sampleTable "p" "x" 1.0 0.25 false (init sampleTable)))
      = Some tv /\
    (pv <=? 0.0) = false /\ (300.0 <? pv) = false /\
    (tv <? 0.0) = false /\ (600.0 <? tv) = false.
Proof.
  apply (setState_success_invariant sampleTable "p" "x" 1.0 0.25 false
           (init sampleTable)).
  vm_compute. reflexivity.
Defined.

Lemma setState_success_names_witness :
  In (normalize " P", normalize "X ")
     [("p", "t"); ("t", "p"); ("p", "x"); ("x", "p")].
Proof.
  apply (setState_success_names sampleTable " P" "X " 1.0 0.25 true
           (init sampleTable)
           (snd (setState sampleTable " P" "X " 1.0 0.25 true (init sampleTable)))).
  vm_compute. reflexivity.
Defined.


(** The initial form with "English" clicked: nothing is left to convert
    after the first [setUnits]. *)
Lemma setUnits_converts_once_witness :
  exists g,
    setUnits sampleUC sampleFormat3 (sampleFormEnglish (Number 25.0))
      = (Ok tt, g) /\
    toggled g = false /\
    setUnits sampleUC sampleFormat3 g = (Ok tt, reformatted sampleFormat3 g) /\
    ((forall v, sampleFormat3 (sampleFormat3 v) = sampleFormat3 v) ->
     setUnits sampleUC sampleFormat3 g = (Ok tt, g)).
Proof.
  apply (setUnits_converts_once sampleUC sampleFormat3
           (sampleFormEnglish (Number 25.0)) 25.0 100.0 1.0 200.0).
  repeat split; reflexivity.
Defined.

(** 25 bar becomes 362.595 psi and 100 C becomes 212 F. *)
Lemma setUnits_converts_lines_witness :
  lineValue S1P1
    (snd (setUnits sampleUC sampleFormat3 (sampleFormEnglish (Number 25.0))))
    = Number (sampleFormat3 (25.0 * 14.5038)) /\
  lineValue S1P2
    (snd (setUnits sampleUC sampleFormat3 (sampleFormEnglish (Number 25.0))))
    = Number (sampleFormat3 (100.0 * 1.8 + 32.0)).
Proof.
  split.
  - apply (setUnits_converts_lines sampleUC sampleFormat3
             (sampleFormEnglish (Number 25.0)) 25.0 100.0 1.0 200.0 S1P1 25.0);
      solve [repeat split; reflexivity | reflexivity].
  - apply (setUnits_converts_lines sampleUC sampleFormat3
             (sampleFormEnglish (Number 25.0)) 25.0 100.0 1.0 200.0 S1P2 100.0);
      solve [repeat split; reflexivity | reflexivity].
Defined.


(** An empty first line edit with "English" clicked: nothing is
    converted, and [currentUnits] says "EN" all the same. *)
Lemma setUnits_stops_at_no_number_witness :
  fst (setUnits sampleUC sampleFormat3 (sampleFormEnglish (NoNumber "")))
    = Raise (ValueError (CouldNotConvert "")) /\
  Window.currentUnits
    (Form.window
       (snd (setUnits sampleUC sampleFormat3 (sampleFormEnglish (NoNumber "")))))
    = "EN" /\
  toggled
    (snd (setUnits sampleUC sampleFormat3 (sampleFormEnglish (NoNumber ""))))
    = false /\
  lineValue S1P2
    (snd (setUnits sampleUC sampleFormat3 (sampleFormEnglish (NoNumber ""))))
    = Number 100.0 /\
  lineUnits S1P2
    (snd (setUnits sampleUC sampleFormat3 (sampleFormEnglish (NoNumber ""))))
    = "C".
Proof.
  destruct (setUnits_stops_at_no_number sampleUC sampleFormat3
              (sampleFormEnglish (NoNumber "")) S1P1 "")
    as (H1 & H2 & H3 & _).
  - reflexivity.
  - intros l' H. cbn in H. lia.
  - split; [exact H1|]. split; [reflexivity|]. split; [exact H2|].
    destruct (H3 S1P2) as [A B]; [cbn; lia|].
    split; [exact A | exact B].
Defined.
